(** * Legacy dynamic values and schemas of the base connector service

    A shallow embedding of [BaseConnectorService] (designer client
    services, [base.ts]): the legacy path-based resolution of dynamic
    pick-list values and schemas, the routing of the backing HTTP call and
    the normalisation of the connector's response envelope.

    JavaScript values are modelled by [JSONValue]; objects are finite maps
    from property names to values ([gmap string JSONValue]).  Exceptions
    are values of [Thrown]; a synchronous computation that may throw is a
    [Result]; an [async] function yields a [Promise] that is fulfilled,
    rejected or still pending.  Numbers are restricted to integers. *)

From Stdlib Require Import ZArith Ascii String List Bool Lia.
From stdpp Require Import base option list strings gmap fin_maps pretty.

#[local] Set Warnings "-register-all".
#[local] Open Scope string_scope.

(** ** Values *)

Inductive JSONValue : Type :=
| JUndefined
| JNull
| JBool (b : bool)
| JNum (n : Z)
| JStr (s : string)
| JArr (items : list JSONValue)
| JObj (fields : gmap string JSONValue).

#[export] Instance JSONValue_inhabited : Inhabited JSONValue := populate JUndefined.

(** [ToBoolean]: what [if (v)], [!v], [a && b] and [c ? x : y] test. *)
Definition truthy (v : JSONValue) : bool :=
  match v with
  | JUndefined | JNull => false
  | JBool b => b
  | JNum n => negb (n =? 0)%Z
  | JStr s => negb (String.eqb s "")
  | JArr _ | JObj _ => true
  end.

(** [a ?? b] *)
Definition nullish (v : JSONValue) : bool :=
  match v with
  | JUndefined | JNull => true
  | _ => false
  end.

Definition coalesce (a b : JSONValue) : JSONValue :=
  if nullish a then b else a.

(** [v === 'literal'] *)
Definition strictEqualsString (v : JSONValue) (literal : string) : bool :=
  match v with
  | JStr s => String.eqb s literal
  | _ => false
  end.

(** The key under which an array or a string holds its [i]-th element. *)
Definition indexOfKey (k : string) (len : nat) : option nat :=
  fst <$> list_find (λ i : nat, pretty i = k) (seq 0 len).

(** [v.k] and [v[k]] on a value that is neither [null] nor [undefined]
    (reading a property of those throws: see [readProp]).  Own properties
    only: methods found on prototypes are not values of the model. *)
Definition getProp (v : JSONValue) (k : string) : JSONValue :=
  match v with
  | JObj fields => default JUndefined (fields !! k)
  | JArr items =>
      if String.eqb k "length" then JNum (Z.of_nat (length items))
      else default JUndefined (indexOfKey k (length items) ≫= λ i, items !! i)
  | JStr s =>
      if String.eqb k "length" then JNum (Z.of_nat (String.length s))
      else match indexOfKey k (String.length s) ≫= λ i, String.get i s with
           | Some c => JStr (String c "")
           | None => JUndefined
           end
  | _ => JUndefined
  end.

(** The own enumerable properties: what [Object.keys] lists and what an
    object spread [{...v}] copies. *)
Definition ownEntries (v : JSONValue) : gmap string JSONValue :=
  match v with
  | JObj fields => fields
  | JArr items => list_to_map (imap (λ i x, (pretty i, x)) items)
  | JStr s =>
      list_to_map (imap (λ i c, (pretty i, JStr (String c ""))) (list_ascii_of_string s))
  | _ => ∅
  end.

(** [String(v)], the coercion of a template literal. *)
Fixpoint toStringJS (v : JSONValue) : string :=
  match v with
  | JUndefined => "undefined"
  | JNull => "null"
  | JBool true => "true"
  | JBool false => "false"
  | JNum n => pretty n
  | JStr s => s
  | JArr items =>
      String.concat ","
        (map (λ x, match x with
                   | JUndefined | JNull => ""
                   | _ => toStringJS x
                   end) items)
  | JObj _ => "[object Object]"
  end.

(** ** Strings *)

Definition toLowerCaseAscii (c : ascii) : ascii :=
  let n := nat_of_ascii c in
  if (65 <=? n)%nat && (n <=? 90)%nat then ascii_of_nat (n + 32) else c.

Definition toUpperCaseAscii (c : ascii) : ascii :=
  let n := nat_of_ascii c in
  if (97 <=? n)%nat && (n <=? 122)%nat then ascii_of_nat (n - 32) else c.

Fixpoint toLowerCase (s : string) : string :=
  match s with
  | EmptyString => EmptyString
  | String c rest => String (toLowerCaseAscii c) (toLowerCase rest)
  end.

Fixpoint toUpperCase (s : string) : string :=
  match s with
  | EmptyString => EmptyString
  | String c rest => String (toUpperCaseAscii c) (toUpperCase rest)
  end.

(** [s.split(sep)] for a one-character separator: never the empty list. *)
Fixpoint split (sep : ascii) (s : string) : list string :=
  match s with
  | EmptyString => [EmptyString]
  | String c rest =>
      if Ascii.eqb c sep then EmptyString :: split sep rest
      else match split sep rest with
           | seg :: segs => String c seg :: segs
           | [] => [String c EmptyString]
           end
  end.

Definition slash : ascii := "/"%char.

(** [arr.splice(start, deleteCount)]: the removed elements, which is what
    the call returns, and the elements left in [arr]. *)
Definition splice {A} (start deleteCount : Z) (arr : list A) : list A * list A :=
  let len := Z.of_nat (length arr) in
  let from := if (start <? 0)%Z then Z.max (len + start) 0 else Z.min start len in
  let count := Z.max 0 (Z.min deleteCount (len - from)) in
  (take (Z.to_nat count) (drop (Z.to_nat from) arr),
   (take (Z.to_nat from) arr ++ drop (Z.to_nat (from + count)) arr)%list).

(** ** Exceptions, results and promises *)

Inductive ConnectorServiceErrorCode :=
| API_EXECUTION_FAILED
| API_EXECUTION_FAILED_WITH_ERROR.

Inductive Thrown : Type :=
| TypeError (message : string)
| UnsupportedException (message : string)
| ConnectorServiceException
    (code : ConnectorServiceErrorCode) (message : JSONValue)
    (data : JSONValue) (innerException : option Thrown)
| Raised (v : JSONValue).

(** [ex && ex.message] of a [catch (ex)] clause. *)
Definition messageOf (ex : Thrown) : JSONValue :=
  match ex with
  | TypeError m => JStr m
  | UnsupportedException m => JStr m
  | ConnectorServiceException _ m _ _ => m
  | Raised v => if truthy v then getProp v "message" else v
  end.

Inductive Result (A : Type) : Type :=
| Ok (a : A)
| Throw (ex : Thrown).
Arguments Ok {A} a.
Arguments Throw {A} ex.

#[export] Instance Result_ret : MRet Result := λ A a, Ok a.
#[export] Instance Result_bind : MBind Result := λ A B k r,
  match r with
  | Ok a => k a
  | Throw ex => Throw ex
  end.

(** Reading a property throws on [null] and [undefined]. *)
Definition readProp (v : JSONValue) (k : string) : Result JSONValue :=
  if nullish v
  then Throw (TypeError ("Cannot read properties of " +:+ toStringJS v +:+
                         " (reading '" +:+ k +:+ "')"))
  else Ok (getProp v k).

Inductive Promise : Type :=
| Fulfilled (v : JSONValue)
| Rejected (ex : Thrown)
| Pending.

(** What calling a method of the HTTP client does: it throws before it
    returns, or it returns a promise. *)
Inductive Call : Type :=
| Threw (ex : Thrown)
| Returned (p : Promise).

(** The promise of an [async] function whose body ran to [r]. *)
Definition settle (r : Result JSONValue) : Promise :=
  match r with
  | Ok v => Fulfilled v
  | Throw ex => Rejected ex
  end.

(** [await p] followed by the rest [k] of an [async] function. *)
Definition await (p : Promise) (k : JSONValue → Result JSONValue) : Promise :=
  match p with
  | Fulfilled v => settle (k v)
  | Rejected ex => Rejected ex
  | Pending => Pending
  end.

(** [o ? f(o) : d] on an optional string: [undefined] and the empty string
    are falsy. *)
Definition whenSet {A} (o : option string) (f : string → A) (d : A) : A :=
  match o with
  | Some s => if String.eqb s "" then d else f s
  | None => d
  end.

Definition isSet (o : option string) : bool := whenSet o (λ _, true) false.

(** ** Helpers of the utilities package *)

(** Modelled from the spec: [getObjectPropertyValue] of the utilities
    package, the Path Extractor: "starting at root, for each segment, if
    the current value is an object/mapping with that key, descend; if the
    current value is absent/undefined/null at any step, stop and return
    undefined immediately (no error). Empty path returns root unchanged." *)
Fixpoint getObjectPropertyValue (root : JSONValue) (path : list string) : JSONValue :=
  match path with
  | [] => root
  | segment :: rest =>
      if nullish root then JUndefined
      else getObjectPropertyValue (getProp root segment) rest
  end.

(** Modelled from the spec: [isNullOrUndefined] of the utilities package;
    a value it rejects is the "defined value" of the spec. *)
Definition isNullOrUndefined (v : JSONValue) : bool := nullish v.

(** Modelled from the spec: [equals] of the utilities package with its
    default arguments, "case-insensitive equality" of two strings. *)
Definition equals (x y : string) : bool :=
  String.eqb (toLowerCase x) (toLowerCase y).

(** Modelled from the spec: [Types.Object] of the parsers package, the
    "object" kind. *)
Definition Types_Object : string := "object".

(** The collaborators whose behaviour the spec leaves open: the two URL
    helpers, the coercion [getJSONValue], the header inspection and the
    rendering of a placeholder value by [intl.formatMessage]. *)
Class Collaborators := {
  isArmResourceId : string → bool;
  pathCombine : string → JSONValue → string;
  getJSONValue : JSONValue → JSONValue;
  getClientRequestIdFromHeaders : JSONValue → JSONValue;
  formatArg : JSONValue → string;
}.

(** ** The message formatter

    [intl.formatMessage] on a template and its values, for the templates
    of the service, which have simple arguments only (no tag, plural or
    select).  The template is an ICU message: [{name}] is replaced by the
    rendering of [values[name]]; an apostrophe before a brace or an angle
    bracket starts quoted text, which runs to the next single apostrophe
    and is taken as it is, braces included; two apostrophes are one
    apostrophe; any other apostrophe stands for itself. *)
Inductive FormatMode : Type :=
| InText
| InQuote
| InArgument (name : string).

Definition startsQuote (c : ascii) : bool :=
  Ascii.eqb c "{" || Ascii.eqb c "}" || Ascii.eqb c "<" || Ascii.eqb c ">".

Fixpoint formatFrom
    (render : string → string) (mode : FormatMode) (template : string) : string :=
  match template with
  | EmptyString => EmptyString
  | String c rest =>
      match mode with
      | InText =>
          if Ascii.eqb c "'" then
            match rest with
            | EmptyString => String c EmptyString
            | String c' rest' =>
                if Ascii.eqb c' "'" then String c' (formatFrom render InText rest')
                else if startsQuote c' then String c' (formatFrom render InQuote rest')
                else String c (formatFrom render InText rest)
            end
          else if Ascii.eqb c "{" then formatFrom render (InArgument "") rest
          else String c (formatFrom render InText rest)
      | InQuote =>
          if Ascii.eqb c "'" then
            match rest with
            | String c' rest' =>
                if Ascii.eqb c' "'" then String c' (formatFrom render InQuote rest')
                else formatFrom render InText rest
            | EmptyString => EmptyString
            end
          else String c (formatFrom render InQuote rest)
      | InArgument name =>
          if Ascii.eqb c "}" then render name +:+ formatFrom render InText rest
          else formatFrom render (InArgument (name +:+ String c EmptyString)) rest
      end
  end.

Definition formatMessage `{!Collaborators}
    (defaultMessage : string) (values : gmap string JSONValue) : string :=
  formatFrom (λ name, formatArg (default JUndefined (values !! name)))
             InText defaultMessage.

Arguments formatMessage : simpl never.

(** ** Data model *)

Module OperationInfo.
Record t := { connectorId : string; operationId : string }.
End OperationInfo.

Record LegacyDynamicValuesExtension := {
  value_collection : option string;
  value_path : string;
  value_title : option string;
  value_description : option string;
  value_selectable : option string;
}.

Record LegacyDynamicSchemaExtension := {
  schema_value_path : option string;
}.

(** The options object handed to a method of the HTTP client; [headers] and
    [content] are [None] when the object has no such key. *)
Record HttpRequestOptions := {
  uri : string;
  queryParameters : gmap string JSONValue;
  headers : option JSONValue;
  content : option JSONValue;
}.

Record IHttpClient := {
  get : HttpRequestOptions → Call;
  post : HttpRequestOptions → Call;
  put : HttpRequestOptions → Call;
}.

(** One request handed to the HTTP client. *)
Inductive HttpCall :=
| GET (options : HttpRequestOptions)
| POST (options : HttpRequestOptions)
| PUT (options : HttpRequestOptions).

Module ApiHubServiceDetails.
Record t := {
  apiVersion : string;
  baseUrl : string;
  subscriptionId : string;
  resourceGroup : string;
}.
End ApiHubServiceDetails.

(** The fields of [BaseConnectorServiceOptions] that the legacy resolution
    reads. *)
Record BaseConnectorServiceOptions := {
  apiVersion : string;
  baseUrl : string;
  httpClient : IHttpClient;
  clientSupportedOperations : list OperationInfo.t;
  apiHubServiceDetails : ApiHubServiceDetails.t;
}.

(** ** The service *)

Section BaseConnectorService.
Context `{!Collaborators}.

Definition _isClientSupportedOperation
    (options : BaseConnectorServiceOptions) (connectorId operationId : string) : bool :=
  existsb
    (λ operationInfo,
       equals connectorId (OperationInfo.connectorId operationInfo)
       && equals operationId (OperationInfo.operationId operationInfo))
    (clientSupportedOperations options).

(** [const { body: { error, message }, statusCode } = response] throws
    when [response] or its [body] is [null] or [undefined]. *)
Definition _getErrorMessageFromConnectorResponse
    (response : JSONValue) (defaultErrorMessage : string)
    (clientRequestId : JSONValue) : Result JSONValue :=
  body ← readProp response "body";
  error ← readProp body "error";
  message ← readProp body "message";
  statusCode ← readProp response "statusCode";
  let errorMessage :=
    if match statusCode with JUndefined => false | _ => true end && truthy message
    then JStr (formatMessage
                 "Error code: '{errorCode}', Message: '{message}'."
                 {[ "errorCode" := statusCode; "message" := message ]})
    else coalesce (if nullish error then JUndefined else getProp error "message")
                  (JStr defaultErrorMessage) in
  mret (if truthy clientRequestId
        then JStr (toStringJS errorMessage +:+ " " +:+
                   formatMessage
                     "More diagnostic information: x-ms-client-request-id is '{clientRequestId}'."
                     {[ "clientRequestId" := clientRequestId ]})
        else errorMessage).

Definition _getResponseFromDynamicApi
    (responseJson : JSONValue) (requestUrl : string) : Result JSONValue :=
  response ← readProp responseJson "response";
  let connectorResponse := coalesce response responseJson in
  if strictEqualsString (getProp connectorResponse "statusCode") "OK"
  then mret (getProp connectorResponse "body")
  else
      let clientRequestId :=
        getClientRequestIdFromHeaders (getProp connectorResponse "headers") in
      let defaultErrorMessage :=
        formatMessage "Error executing the api - {url}"
                      {[ "url" := JStr requestUrl ]} in
      errorMessage ←
        _getErrorMessageFromConnectorResponse
          connectorResponse defaultErrorMessage clientRequestId;
      Throw (ConnectorServiceException
               API_EXECUTION_FAILED_WITH_ERROR errorMessage
               (JObj {[ "connectorResponse" := connectorResponse ]}) None).

(** [parameters[k]] *)
Definition param (parameters : gmap string JSONValue) (k : string) : JSONValue :=
  default JUndefined (parameters !! k).

(** [method.toLowerCase()] on whatever [parameters['method']] holds. *)
Definition toLowerCaseOf (method : JSONValue) : Result string :=
  match method with
  | JStr s => Ok (toLowerCase s)
  | JUndefined | JNull =>
      Throw (TypeError ("Cannot read properties of " +:+ toStringJS method +:+
                        " (reading 'toLowerCase')"))
  | _ => Throw (TypeError "method.toLowerCase is not a function")
  end.

(** The exception built by the two [catch (ex)] clauses of
    [_executeAzureDynamicApi], which are the same text. *)
Definition executionFailed
    (method : JSONValue) (uri : string) (parameters : gmap string JSONValue)
    (ex : Thrown) : Thrown :=
  ConnectorServiceException
    API_EXECUTION_FAILED
    (if truthy (messageOf ex) then messageOf ex
     else JStr (formatMessage "Error executing the api '{parameters}'."
                              {[ "parameters" := param parameters "path" ]}))
    (JObj {[ "requestMethod" := method;
             "uri" := JStr uri;
             "inputPath" := param parameters "path" ]})
    (Some ex).

Definition dynamicInvokeUri (options : BaseConnectorServiceOptions) : string :=
  baseUrl options +:+ "/dynamicInvoke".

Definition requestUri
    (options : BaseConnectorServiceOptions) (connectionId connectorId : string)
    (parameters : gmap string JSONValue) (isManagedIdentityTypeConnection : bool)
    : string :=
  if isManagedIdentityTypeConnection then dynamicInvokeUri options
  else if isArmResourceId connectorId
  then pathCombine
         (ApiHubServiceDetails.baseUrl (apiHubServiceDetails options) +:+ "/" +:+
          connectionId +:+ "/extensions/proxy")
         (param parameters "path")
  else pathCombine
         (baseUrl options +:+ "/" +:+ connectionId +:+ "/extensions/proxy")
         (param parameters "path").

(** The content of the managed-identity POST. *)
Definition dynamicInvokeContent
    (parameters : gmap string JSONValue) (managedIdentityProperties : JSONValue)
    : JSONValue :=
  JObj {[ "request" :=
            JObj {[ "method" := param parameters "method";
                    "path" := param parameters "path";
                    "body" := param parameters "body";
                    "queries" := param parameters "queries";
                    "headers" := param parameters "headers" ]};
          "properties" := managedIdentityProperties ]}.

(** The options of the managed-identity POST. *)
Definition dynamicInvokeRequest
    (options : BaseConnectorServiceOptions) (parameters : gmap string JSONValue)
    (managedIdentityProperties : JSONValue) : HttpRequestOptions :=
  {| uri := dynamicInvokeUri options;
     queryParameters :=
       {[ "api-version" :=
            JStr (ApiHubServiceDetails.apiVersion (apiHubServiceDetails options)) ]};
     headers := None;
     content := Some (dynamicInvokeContent parameters managedIdentityProperties) |}.

(** The requests handed to the HTTP client, in order, and the promise the
    [async] function returns.  In the managed-identity branch the client's
    promise is awaited inside the [try] block; in the other branch it is
    returned from inside the [try] block without [await], so only what is
    thrown before a promise exists reaches the [catch] clause. *)
Definition _executeAzureDynamicApi
    (options : BaseConnectorServiceOptions) (connectionId connectorId : string)
    (parameters : gmap string JSONValue) (isManagedIdentityTypeConnection : bool)
    (managedIdentityProperties : JSONValue) : list HttpCall * Promise :=
  let method := param parameters "method" in
  let uri :=
    requestUri options connectionId connectorId parameters
               isManagedIdentityTypeConnection in
  let failed := executionFailed method uri parameters in
  if isManagedIdentityTypeConnection then
    let request :=
      dynamicInvokeRequest options parameters managedIdentityProperties in
    ([POST request],
     match post (httpClient options) request with
     | Threw ex => Rejected (failed ex)
     | Returned Pending => Pending
     | Returned (Rejected ex) => Rejected (failed ex)
     | Returned (Fulfilled response) =>
         match _getResponseFromDynamicApi response uri with
         | Ok body => Fulfilled body
         | Throw ex => Rejected (failed ex)
         end
     end)
  else
    let request :=
      {| uri := uri;
         queryParameters :=
           ownEntries (param parameters "queries")
           ∪ {[ "api-version" :=
                  JStr (ApiHubServiceDetails.apiVersion (apiHubServiceDetails options)) ]};
         headers := Some (param parameters "headers");
         content := None |} in
    let bodyContent := param parameters "body" in
    let withContent :=
      if truthy bodyContent
      then {| uri := uri;
              queryParameters := queryParameters request;
              headers := headers request;
              content := Some bodyContent |}
      else request in
    let returned (call : Call) : Promise :=
      match call with
      | Threw ex => Rejected (failed ex)
      | Returned p => p
      end in
    match toLowerCaseOf method with
    | Throw ex => ([], Rejected (failed ex))
    | Ok lowered =>
        if String.eqb lowered "get"
        then ([GET request], returned (get (httpClient options) request))
        else if String.eqb lowered "post"
        then ([POST withContent], returned (post (httpClient options) withContent))
        else if String.eqb lowered "put"
        then ([PUT withContent], returned (put (httpClient options) withContent))
        else ([], Rejected (failed (UnsupportedException
                 ("Unsupported dynamic call connector method - '" +:+
                  toStringJS method +:+ "'"))))
    end.

(** The callback of [values.map] in [getLegacyDynamicValues]. *)
Definition toDynamicValue
    (extension : LegacyDynamicValuesExtension) (parameterArrayType : option string)
    (property : JSONValue) : JSONValue :=
  let '(value, displayName) :=
    if whenSet parameterArrayType (λ t, negb (String.eqb t Types_Object)) false
    then (getJSONValue property, getJSONValue property)
    else
      let value :=
        getObjectPropertyValue property (split slash (value_path extension)) in
      (value,
       whenSet (value_title extension)
         (λ path, getObjectPropertyValue property (split slash path)) value) in
  let description :=
    whenSet (value_description extension)
      (λ path, getObjectPropertyValue property (split slash path)) JUndefined in
  let isSelectable :=
    whenSet (value_selectable extension)
      (λ path,
         let selectableValue := getObjectPropertyValue property (split slash path) in
         if negb (isNullOrUndefined selectableValue) then selectableValue
         else JBool true)
      (JBool true) in
  JObj {[ "value" := value;
          "displayName" := displayName;
          "description" := description;
          "disabled" := JBool (negb (truthy isSelectable)) ]}.

(** What [getLegacyDynamicValues] does with the awaited [response]. *)
Definition legacyValuesOf
    (extension : LegacyDynamicValuesExtension) (parameterArrayType : option string)
    (response : JSONValue) : Result JSONValue :=
  let values :=
    getObjectPropertyValue response
      (whenSet (value_collection extension) (split slash) []) in
  if truthy values && truthy (getProp values "length") then
    match values with
    | JArr items => Ok (JArr (map (toDynamicValue extension parameterArrayType) items))
    | _ => Throw (TypeError "values.map is not a function")
    end
  else Ok response.

Definition getLegacyDynamicValues
    (options : BaseConnectorServiceOptions) (connectionId connectorId : string)
    (parameters : gmap string JSONValue) (extension : LegacyDynamicValuesExtension)
    (parameterArrayType : option string) (isManagedIdentityTypeConnection : bool)
    (managedIdentityProperties : JSONValue) : list HttpCall * Promise :=
  let '(calls, response) :=
    _executeAzureDynamicApi options connectionId connectorId parameters
      isManagedIdentityTypeConnection managedIdentityProperties in
  (calls, await response (legacyValuesOf extension parameterArrayType)).

(** What [getLegacyDynamicSchema] does with the awaited [response]: the
    path handed to [getObjectPropertyValue] is what [splice] returns. *)
Definition legacySchemaOf
    (extension : LegacyDynamicSchemaExtension) (response : JSONValue) : Result JSONValue :=
  if negb (truthy response) then Ok JNull
  else
    match whenSet (schema_value_path extension) (λ p, Some (split slash p)) None with
    | Some schemaPath =>
        Ok (coalesce
              (getObjectPropertyValue response
                 (if negb (length schemaPath =? 0)%nat
                     && equals (List.last schemaPath "") "properties"
                  then fst (splice (-1) 1 schemaPath)
                  else schemaPath))
              JNull)
    | None =>
        Ok (JObj {[ "properties" := response; "type" := JStr Types_Object ]})
    end.

Definition getLegacyDynamicSchema
    (options : BaseConnectorServiceOptions) (connectionId connectorId : string)
    (parameters : gmap string JSONValue) (extension : LegacyDynamicSchemaExtension)
    (isManagedIdentityTypeConnection : bool)
    (managedIdentityProperties : JSONValue) : list HttpCall * Promise :=
  let '(calls, response) :=
    _executeAzureDynamicApi options connectionId connectorId parameters
      isManagedIdentityTypeConnection managedIdentityProperties in
  (calls, await response (legacySchemaOf extension)).

(** *** Merging the dynamic state into the invoke parameters

    [_getInvokeParameters] writes to an object, so the objects that are
    passed by reference live in a store: a finite map from references to
    objects.  [parameters] is such a reference; [dynamicState] is only
    read and is passed as the value it holds. *)

(** [obj[k] = v] on the object at [ref]. *)
Definition setProperty
    (σ : gmap nat (gmap string JSONValue)) (ref : nat) (k : string) (v : JSONValue)
    : gmap nat (gmap string JSONValue) :=
  alter (insert k v) ref σ.

(** The body of the [for ... of Object.keys(additionalParameters)] loop,
    over the entries that are left to visit.  Each entry writes its own
    key, so the store at the end does not depend on the order of the
    keys. *)
Fixpoint assignDefined
    (entries : list (string * JSONValue)) (invokeParameters : nat)
    (σ : gmap nat (gmap string JSONValue))
    : gmap nat (gmap string JSONValue) * Result unit :=
  match entries with
  | [] => (σ, Ok ())
  | (parameterName, entry) :: rest =>
      match readProp entry "value" with
      | Throw ex => (σ, Throw ex)
      | Ok value =>
          assignDefined rest invokeParameters
            match value with
            | JUndefined => σ
            | _ => setProperty σ invokeParameters parameterName value
            end
      end
  end.

Definition _getInvokeParameters
    (σ : gmap nat (gmap string JSONValue)) (parameters : nat)
    (dynamicState : JSONValue)
    : gmap nat (gmap string JSONValue) * Result nat :=
  let invokeParameters := fresh (dom σ) in
  let σ1 := <[invokeParameters := default ∅ (σ !! parameters)]> σ in
  match readProp dynamicState "parameters" with
  | Throw ex => (σ1, Throw ex)
  | Ok additionalParameters =>
      if truthy additionalParameters then
        let '(σ2, done) :=
          assignDefined (map_to_list (ownEntries additionalParameters))
                        invokeParameters σ1 in
        (σ2, match done with
             | Ok _ => Ok invokeParameters
             | Throw ex => Throw ex
             end)
      else (σ1, Ok invokeParameters)
  end.

End BaseConnectorService.

(** ** Stand-ins for the collaborators, used by the examples *)

(** Modelled from the spec: [isArmResourceId] of the utilities package,
    "an ARM resource identifier (full /subscriptions/.../providers/...
    form)". *)
Definition specIsArmResourceId (resourceId : string) : bool :=
  String.prefix "/subscriptions/" resourceId
  && bool_decide (is_Some (String.index 0 "/providers/" resourceId)).

(** Modelled from the spec: [pathCombine] of the helpers, "URI =
    <base>/<connectionId>/extensions/proxy/<path>", where the path "/bar"
    gives ".../extensions/proxy/bar". *)
Definition specPathCombine (url : string) (path : JSONValue) : string :=
  match path with
  | JStr (String "/" rest) => url +:+ "/" +:+ rest
  | JStr p => url +:+ "/" +:+ p
  | _ => url
  end.

(** Modelled from the spec: [getJSONValue] of the utilities package, "the
    element itself (coerced to a plain scalar/JSON representation)"; the
    values of the model are in that representation. *)
Definition specGetJSONValue (v : JSONValue) : JSONValue := v.

(** Modelled from the spec: [getClientRequestIdFromHeaders] of the helpers,
    "a header-inspection helper returning a client-request-id string or
    undefined from a response's header map", the header being
    x-ms-client-request-id. *)
Definition specGetClientRequestIdFromHeaders (headers : JSONValue) : JSONValue :=
  if nullish headers then JUndefined else getProp headers "x-ms-client-request-id".

(** Modelled from the spec: the message formatter, "producing
    human-readable strings from a template + substitution map": a string
    or a number is rendered as [String] renders it, anything else as the
    empty string. *)
Definition specFormatArg (v : JSONValue) : string :=
  match v with
  | JStr _ | JNum _ => toStringJS v
  | _ => ""
  end.

Definition specCollaborators : Collaborators := {|
  isArmResourceId := specIsArmResourceId;
  pathCombine := specPathCombine;
  getJSONValue := specGetJSONValue;
  getClientRequestIdFromHeaders := specGetClientRequestIdFromHeaders;
  formatArg := specFormatArg;
|}.

(** The allow-list of the designer of the editor extension
    ([app/constants.ts]). *)
Definition designerSupportedOperations : list OperationInfo.t :=
  map (λ '(c, o), {| OperationInfo.connectorId := c; OperationInfo.operationId := o |})
    [ ("connectionProviders/localWorkflowOperation", "invokeWorkflow");
      ("connectionProviders/xmlOperations", "xmlValidation");
      ("connectionProviders/xmlOperations", "xmlTransform");
      ("connectionProviders/liquidOperations", "liquidJsonToJson");
      ("connectionProviders/liquidOperations", "liquidJsonToText");
      ("connectionProviders/liquidOperations", "liquidXmlToJson");
      ("connectionProviders/liquidOperations", "liquidXmlToText");
      ("connectionProviders/flatFileOperations", "flatFileDecoding");
      ("connectionProviders/flatFileOperations", "flatFileEncoding");
      ("connectionProviders/swiftOperations", "SwiftDecode");
      ("connectionProviders/swiftOperations", "SwiftEncode") ].

(** An HTTP client whose three methods all return [answer]. *)
Definition clientAnswering (answer : Call) : IHttpClient :=
  {| get := λ _, answer; post := λ _, answer; put := λ _, answer |}.

Definition exampleOptions (answer : Call) : BaseConnectorServiceOptions :=
  {| apiVersion := "2018-11-01";
     baseUrl := "https://designer.example/runtime";
     httpClient := clientAnswering answer;
     clientSupportedOperations := designerSupportedOperations;
     apiHubServiceDetails :=
       {| ApiHubServiceDetails.apiVersion := "2018-07-01-preview";
          ApiHubServiceDetails.baseUrl := "https://hub.example";
          ApiHubServiceDetails.subscriptionId := "sub";
          ApiHubServiceDetails.resourceGroup := "rg" |} |}.

(** ** Casing

    [s'] is [s] with the casing of some of its letters changed. *)
Inductive caseVariant : string → string → Prop :=
| caseVariant_nil : caseVariant "" ""
| caseVariant_same c s s' :
    caseVariant s s' → caseVariant (String c s) (String c s')
| caseVariant_upper c s s' :
    caseVariant s s' → caseVariant (String c s) (String (toUpperCaseAscii c) s')
| caseVariant_lower c s s' :
    caseVariant s s' → caseVariant (String c s) (String (toLowerCaseAscii c) s').

(** ** The candidate collection

    The collection as the spec words it: the value at the collection path
    when that path is set, else the whole response. *)
Definition candidateCollection
    (extension : LegacyDynamicValuesExtension) (response : JSONValue) : JSONValue :=
  whenSet (value_collection extension)
    (λ path, getObjectPropertyValue response (split slash path)) response.

(** ** The envelope

    The envelope as the spec words it: [raw.response] if present, else
    [raw] itself. *)
Definition envelopeOf (raw : JSONValue) : JSONValue :=
  coalesce (getProp raw "response") raw.

(** ** Inputs of the examples *)

(** A response of [dynamicInvoke] whose envelope is under [response]. *)
Definition okEnvelope (body : JSONValue) : JSONValue :=
  JObj {[ "response" := JObj {[ "statusCode" := JStr "OK"; "body" := body ]} ]}.

Definition getItems : gmap string JSONValue :=
  {[ "method" := JStr "get"; "path" := JStr "/items" ]}.

(** A schema held under [schema], with its [properties]. *)
Definition tableSchema : JSONValue :=
  JObj {[ "type" := JStr "object";
          "properties" := JObj {[ "name" := JObj {[ "type" := JStr "string" ]} ]} ]}.

Definition schemaBody : JSONValue := JObj {[ "schema" := tableSchema ]}.

Definition schemaUnderProperties : LegacyDynamicSchemaExtension :=
  {| schema_value_path := Some "schema/properties" |}.

Definition wholeBodySchema : LegacyDynamicSchemaExtension :=
  {| schema_value_path := None |}.

(** A failed call as a connector reports it. *)
Definition notFoundEnvelope : JSONValue :=
  JObj {[ "statusCode" := JStr "NotFound";
          "body" := JObj {[ "error" := JObj {[ "message" := JStr "no such table" ]} ]} ]}.

Definition notFoundWithRequestId : JSONValue :=
  JObj {[ "statusCode" := JStr "NotFound";
          "headers" := JObj {[ "x-ms-client-request-id" := JStr "abc" ]};
          "body" := JObj {[ "error" := JObj {[ "message" := JStr "not found" ]} ]} ]}.

(** What a transport rejects with: an [Error] with a message. *)
Definition socketHangUp : Thrown :=
  Raised (JObj {[ "message" := JStr "socket hang up" ]}).

Definition armConnectorId : string :=
  "/subscriptions/sub/providers/Microsoft.Web/locations/westus/managedApis/sql".

Definition itemsBody : JSONValue :=
  JObj {[ "items" :=
            JArr [ JObj {[ "id" := JNum 1; "name" := JStr "one"; "enabled" := JBool false ]};
                   JObj {[ "id" := JNum 2; "name" := JStr "two" ]} ] ]}.

Definition itemsExtension : LegacyDynamicValuesExtension :=
  {| value_collection := Some "items";
     value_path := "id";
     value_title := Some "name";
     value_description := None;
     value_selectable := Some "enabled" |}.

Definition wholeBodyValues : LegacyDynamicValuesExtension :=
  {| value_collection := None;
     value_path := "id";
     value_title := None;
     value_description := None;
     value_selectable := None |}.

Definition emptyItemsBody : JSONValue := JObj {[ "items" := JArr [] ]}.

(** A store with the caller's parameters at reference 0, and a dynamic
    state that sets [a] to [null] and has no value for [b]. *)
Definition callerStore : gmap nat (gmap string JSONValue) :=
  {[ 0%nat := {[ "a" := JNum 1; "b" := JNum 2 ]} ]}.

Definition nullForA : JSONValue :=
  JObj {[ "parameters" :=
            JObj {[ "a" := JObj {[ "value" := JNull ]}; "b" := JObj ∅ ]} ]}.

(** ** Construction

    The options as the constructor receives them: any of the fields it
    tests may be missing.  The service keeps the options it was given. *)
Module ConstructorOptions.
Record t := {
  apiVersion : option string;
  baseUrl : option string;
  httpClient : option IHttpClient;
  clientSupportedOperations : option (list OperationInfo.t);
  schemaClient : option (gmap string (gmap string JSONValue → Promise));
  valuesClient : option (gmap string (gmap string JSONValue → Promise));
}.
End ConstructorOptions.

Inductive Constructed : Type :=
| Service (options : ConstructorOptions.t)
| ArgumentException (message : string).

(** [!field] on a field that holds an object when it is there. *)
Definition missing {A} (field : option A) : bool :=
  match field with
  | Some _ => false
  | None => true
  end.

Definition constructor (options : ConstructorOptions.t) : Constructed :=
  if negb (isSet (ConstructorOptions.apiVersion options))
  then ArgumentException "apiVersion required"
  else if negb (isSet (ConstructorOptions.baseUrl options))
  then ArgumentException "baseUrl required"
  else if missing (ConstructorOptions.httpClient options)
  then ArgumentException "httpClient required"
  else if missing (ConstructorOptions.clientSupportedOperations options)
  then ArgumentException "clientSupportedOperations required"
  else if missing (ConstructorOptions.schemaClient options)
  then ArgumentException "schemaClient required"
  else if missing (ConstructorOptions.valuesClient options)
  then ArgumentException "valuesClient required"
  else Service options.

(** ** Requests

    The options of a request, and what the HTTP client answers to it. *)
Definition optionsOf (call : HttpCall) : HttpRequestOptions :=
  match call with
  | GET options | POST options | PUT options => options
  end.

Definition perform (client : IHttpClient) (call : HttpCall) : Call :=
  match call with
  | GET options => get client options
  | POST options => post client options
  | PUT options => put client options
  end.

(** The options with another allow-list. *)
Definition withSupportedOperations
    (options : BaseConnectorServiceOptions) (operations : list OperationInfo.t)
    : BaseConnectorServiceOptions :=
  {| apiVersion := apiVersion options;
     baseUrl := baseUrl options;
     httpClient := httpClient options;
     clientSupportedOperations := operations;
     apiHubServiceDetails := apiHubServiceDetails options |}.

(** ** The values of the dynamic state

    The additional parameters whose [value] is not [undefined], each with
    that value. *)
Definition definedValues (additionalParameters : JSONValue) : gmap string JSONValue :=
  omap (λ entry,
          match getProp entry "value" with
          | JUndefined => None
          | value => Some value
          end)
       (ownEntries additionalParameters).

(** An HTTP client that throws [socket hang up] before it returns. *)
Definition throwingOptions : BaseConnectorServiceOptions :=
  exampleOptions (Threw socketHangUp).

Definition putItem : gmap string JSONValue :=
  {[ "method" := JStr "PUT"; "path" := JStr "/bar";
     "body" := JObj {[ "k" := JNum 1 ]};
     "queries" := JObj {[ "api-version" := JStr "2020-01-01"; "top" := JNum 5 ]} ]}.

Definition deleteItem : gmap string JSONValue :=
  {[ "method" := JStr "delete"; "path" := JStr "/bar" ]}.

Definition completeOptions : ConstructorOptions.t :=
  {| ConstructorOptions.apiVersion := Some "2018-11-01";
     ConstructorOptions.baseUrl := Some "https://designer.example/runtime";
     ConstructorOptions.httpClient := Some (clientAnswering (Returned Pending));
     ConstructorOptions.clientSupportedOperations := Some [];
     ConstructorOptions.schemaClient := Some ∅;
     ConstructorOptions.valuesClient := Some ∅ |}.

(** The options of a service whose HTTP client answers every request with
    an OK envelope around [body], and the request that a managed-identity
    call then makes. *)
Definition respondingWith (body : JSONValue) : BaseConnectorServiceOptions :=
  exampleOptions (Returned (Fulfilled (okEnvelope body))).

Definition dynamicInvokeOf
    (body : JSONValue) (parameters : gmap string JSONValue) : list HttpCall :=
  [POST (dynamicInvokeRequest (respondingWith body) parameters JUndefined)].

Definition textItemsBody : JSONValue := JObj {[ "items" := JStr "abc" ]}.

Definition singleItemBody : JSONValue :=
  JObj {[ "items" := JObj {[ "id" := JNum 1 ]} ]}.

Definition schemaUnderSchema : LegacyDynamicSchemaExtension :=
  {| schema_value_path := Some "schema" |}.

(** * Properties *)

Example split_ab : split slash "a/b" = ["a"; "b"].
Proof. reflexivity. Qed.

Example split_trailing : split slash "/a/" = [""; "a"; ""].
Proof. reflexivity. Qed.

Example splice_last : splice (-1) 1 ["a"; "b"; "c"] = (["c"], ["a"; "b"]).
Proof. reflexivity. Qed.

Example getProp_index : getProp (JArr [JNum 7; JNum 8]) "1" = JNum 8.
Proof. reflexivity. Qed.

Example getProp_length : getProp (JStr "abc") "length" = JNum 3.
Proof. reflexivity. Qed.

Example toString_arr : toStringJS (JArr [JNum 12; JNull; JStr "x"]) = "12,,x".
Proof. reflexivity. Qed.

Example extract_nested :
  getObjectPropertyValue (JObj {[ "a" := JObj {[ "b" := JNum 5 ]} ]}) ["a"; "b"] = JNum 5
  ∧ getObjectPropertyValue (JObj {[ "a" := JObj {[ "b" := JNum 5 ]} ]}) ["a"; "c"] = JUndefined.
Proof. split; reflexivity. Qed.

Example merge_null_overwrites :
  @_getInvokeParameters
     {[ 0%nat := {[ "a" := JNum 1 ]} ]} 0%nat
     (JObj {[ "parameters" :=
                JObj {[ "a" := JObj {[ "value" := JNull ]}; "b" := JObj ∅ ]} ]})
  = ({[ 0%nat := {[ "a" := JNum 1 ]}; 1%nat := {[ "a" := JNull ]} ]}, Ok 1%nat).
Proof. vm_compute. reflexivity. Qed.

(** ** Casing *)

Lemma toLowerCaseAscii_upper c :
  toLowerCaseAscii (toUpperCaseAscii c) = toLowerCaseAscii c.
Proof.
  destruct c as [[] [] [] [] [] [] [] []]; vm_compute; reflexivity.
Qed.

Lemma toLowerCaseAscii_idem c :
  toLowerCaseAscii (toLowerCaseAscii c) = toLowerCaseAscii c.
Proof.
  destruct c as [[] [] [] [] [] [] [] []]; vm_compute; reflexivity.
Qed.

Lemma caseVariant_toLowerCase s s' :
  caseVariant s s' → toLowerCase s' = toLowerCase s.
Proof.
  induction 1 as [|c s s' _ IH|c s s' _ IH|c s s' _ IH]; simpl.
  - reflexivity.
  - by rewrite IH.
  - by rewrite IH, toLowerCaseAscii_upper.
  - by rewrite IH, toLowerCaseAscii_idem.
Qed.

Lemma caseVariant_toUpperCase s : caseVariant s (toUpperCase s).
Proof. induction s; simpl; by constructor. Qed.

Lemma caseVariant_lowered s : caseVariant s (toLowerCase s).
Proof. induction s; simpl; by constructor. Qed.

Lemma equals_caseVariant x x' y :
  caseVariant x x' → equals x' y = equals x y.
Proof. intros Hx. unfold equals. by rewrite (caseVariant_toLowerCase x x'). Qed.

(** ** Truthiness and extraction *)

Lemma falsy_values v :
  truthy v = false ↔
  v = JUndefined ∨ v = JNull ∨ v = JBool false ∨ v = JNum 0 ∨ v = JStr "".
Proof.
  split.
  - destruct v as [| |[]|n|s| |]; simpl; intros Hv; try discriminate; auto.
    + apply negb_false_iff, Z.eqb_eq in Hv. subst. auto.
    + apply negb_false_iff, String.eqb_eq in Hv. subst. auto 10.
  - intros [-> | [-> | [-> | [-> | ->]]]]; reflexivity.
Qed.

Lemma getObjectPropertyValue_nil root : getObjectPropertyValue root [] = root.
Proof. reflexivity. Qed.

Lemma split_not_nil sep s : split sep s ≠ [].
Proof.
  destruct s as [|c rest]; simpl; [discriminate|].
  destruct (Ascii.eqb c sep); [discriminate|].
  destruct (split sep rest); discriminate.
Qed.

Lemma splice_last_removed {A} (init : list A) (x : A) :
  splice (-1) 1 (init ++ [x])%list = ([x], init).
Proof.
  unfold splice.
  change (-1 <? 0)%Z with true. cbv iota.
  rewrite length_app. change (length [x]) with 1%nat.
  set (len := Z.of_nat (length init + 1)).
  assert (Hfrom : Z.to_nat (Z.max (len + -1) 0) = length init) by (subst len; lia).
  assert (Hcount :
    Z.to_nat (Z.max 0 (Z.min 1 (len - Z.max (len + -1) 0))) = 1%nat)
    by (subst len; lia).
  assert (Hend :
    Z.to_nat (Z.max (len + -1) 0 + Z.max 0 (Z.min 1 (len - Z.max (len + -1) 0)))
    = (length init + 1)%nat) by (subst len; lia).
  rewrite Hfrom, Hcount, Hend.
  rewrite drop_app_length, take_app_length.
  rewrite drop_ge by (rewrite length_app; simpl; lia).
  by rewrite app_nil_r.
Qed.

Lemma append_empty_r (s : string) : s +:+ "" = s.
Proof.
  induction s as [|c s IH]; [reflexivity|].
  change (String c (s +:+ "") = String c s). by rewrite IH.
Qed.

(** The template of the default message has its placeholder outside any
    apostrophe: the URL is put in its place. *)
Lemma formatMessage_url `{!Collaborators} (url : JSONValue) :
  formatMessage "Error executing the api - {url}" {[ "url" := url ]}
  = "Error executing the api - " +:+ formatArg url.
Proof.
  transitivity ("Error executing the api - " +:+ (formatArg url +:+ ""));
    [reflexivity|by rewrite append_empty_r].
Qed.

(** The three other templates have their placeholders between
    apostrophes: the formatter takes them as quoted text and gives the
    same message whatever the values are. *)
Lemma formatMessage_quoted `{!Collaborators} (values : gmap string JSONValue) :
  formatMessage "Error code: '{errorCode}', Message: '{message}'." values
  = "Error code: {errorCode}, Message: {message}."
  ∧ formatMessage
      "More diagnostic information: x-ms-client-request-id is '{clientRequestId}'."
      values
    = "More diagnostic information: x-ms-client-request-id is {clientRequestId}."
  ∧ formatMessage "Error executing the api '{parameters}'." values
    = "Error executing the api {parameters}.".
Proof. repeat split. Qed.

Section Properties.
Context `{!Collaborators}.

(** *** The allow-list *)

(** C9: the allow-list test is true exactly when some entry of the
    configured list matches the connector id and the operation id
    jointly under [equals], and changing the casing of either input
    leaves the answer unchanged. *)
Theorem isClientSupportedOperation_case_insensitive
    (options : BaseConnectorServiceOptions)
    (connectorId operationId connectorId' operationId' : string) :
  caseVariant connectorId connectorId' →
  caseVariant operationId operationId' →
  (_isClientSupportedOperation options connectorId operationId = true ↔
   ∃ operationInfo,
     In operationInfo (clientSupportedOperations options)
     ∧ equals connectorId (OperationInfo.connectorId operationInfo) = true
     ∧ equals operationId (OperationInfo.operationId operationInfo) = true)
  ∧ _isClientSupportedOperation options connectorId' operationId'
    = _isClientSupportedOperation options connectorId operationId.
Proof.
  intros Hc Ho. split.
  - unfold _isClientSupportedOperation. rewrite existsb_exists.
    split; intros (info & Hin & Hm); exists info; split; try done.
    + by apply andb_true_iff in Hm.
    + by apply andb_true_iff.
  - unfold _isClientSupportedOperation.
    induction (clientSupportedOperations options) as [|info infos IH]; simpl.
    + reflexivity.
    + by rewrite IH, (equals_caseVariant _ _ _ Hc), (equals_caseVariant _ _ _ Ho).
Qed.

(** *** The schema of a falsy body *)

(** C10: when the awaited response is any falsy value ([undefined],
    [null], [false], [0] or the empty string), [getLegacyDynamicSchema]
    fulfils with [null], and never with a wrapped schema object. *)
Theorem getLegacyDynamicSchema_falsy_body
    (options : BaseConnectorServiceOptions) (connectionId connectorId : string)
    (parameters : gmap string JSONValue) (extension : LegacyDynamicSchemaExtension)
    (isManagedIdentityTypeConnection : bool) (managedIdentityProperties : JSONValue)
    (calls : list HttpCall) (response : JSONValue) :
  _executeAzureDynamicApi options connectionId connectorId parameters
    isManagedIdentityTypeConnection managedIdentityProperties
  = (calls, Fulfilled response) →
  response = JUndefined ∨ response = JNull ∨ response = JBool false
  ∨ response = JNum 0 ∨ response = JStr "" →
  getLegacyDynamicSchema options connectionId connectorId parameters extension
    isManagedIdentityTypeConnection managedIdentityProperties
  = (calls, Fulfilled JNull).
Proof.
  intros Hexec Hfalsy%falsy_values.
  unfold getLegacyDynamicSchema. rewrite Hexec. simpl.
  unfold legacySchemaOf. by rewrite Hfalsy.
Qed.


(** *** Dynamic values *)

Lemma collection_located extension response :
  getObjectPropertyValue response
    (whenSet (value_collection extension) (split slash) [])
  = candidateCollection extension response.
Proof.
  unfold candidateCollection, whenSet.
  destruct (value_collection extension) as [path|]; [|reflexivity].
  by destruct (String.eqb path "").
Qed.

(** C5: when the candidate collection is absent ([undefined] or [null])
    or empty, [getLegacyDynamicValues] fulfils with the awaited response
    itself. *)
Theorem getLegacyDynamicValues_pass_through
    (options : BaseConnectorServiceOptions) (connectionId connectorId : string)
    (parameters : gmap string JSONValue) (extension : LegacyDynamicValuesExtension)
    (parameterArrayType : option string)
    (isManagedIdentityTypeConnection : bool) (managedIdentityProperties : JSONValue)
    (calls : list HttpCall) (response : JSONValue) :
  _executeAzureDynamicApi options connectionId connectorId parameters
    isManagedIdentityTypeConnection managedIdentityProperties
  = (calls, Fulfilled response) →
  candidateCollection extension response = JUndefined
  ∨ candidateCollection extension response = JNull
  ∨ candidateCollection extension response = JArr [] →
  getLegacyDynamicValues options connectionId connectorId parameters extension
    parameterArrayType isManagedIdentityTypeConnection managedIdentityProperties
  = (calls, Fulfilled response).
Proof.
  intros Hexec Hcollection.
  unfold getLegacyDynamicValues. rewrite Hexec. simpl.
  unfold legacyValuesOf. rewrite collection_located.
  by destruct Hcollection as [-> | [-> | ->]].
Qed.

(** C6: when the candidate collection is a non-empty array,
    [getLegacyDynamicValues] fulfils with an array of the same length
    whose [i]-th element is made from the [i]-th element of the
    collection: [value] and [displayName] are the coerced element when
    the array type is set and is not the object kind, else [value] is
    extracted at the value path and [displayName] at the title path when
    that is set (else it is [value]); [description] is extracted at the
    description path when that is set; [disabled] is the negation of the
    value extracted at the selectable path when that path is set and the
    extracted value is neither [undefined] nor [null], and [false]
    otherwise. *)
Theorem getLegacyDynamicValues_maps_collection
    (options : BaseConnectorServiceOptions) (connectionId connectorId : string)
    (parameters : gmap string JSONValue) (extension : LegacyDynamicValuesExtension)
    (parameterArrayType : option string)
    (isManagedIdentityTypeConnection : bool) (managedIdentityProperties : JSONValue)
    (calls : list HttpCall) (response : JSONValue) (items : list JSONValue) :
  _executeAzureDynamicApi options connectionId connectorId parameters
    isManagedIdentityTypeConnection managedIdentityProperties
  = (calls, Fulfilled response) →
  candidateCollection extension response = JArr items →
  items ≠ [] →
  ∃ values : list JSONValue,
    getLegacyDynamicValues options connectionId connectorId parameters extension
      parameterArrayType isManagedIdentityTypeConnection managedIdentityProperties
    = (calls, Fulfilled (JArr values))
    ∧ length values = length items
    ∧ ∀ (i : nat) (property : JSONValue),
        items !! i = Some property →
        ∃ dynamicValue,
          values !! i = Some dynamicValue
          ∧ (whenSet parameterArrayType (λ t, negb (String.eqb t "object")) false = true →
             getProp dynamicValue "value" = getJSONValue property
             ∧ getProp dynamicValue "displayName" = getJSONValue property)
          ∧ (whenSet parameterArrayType (λ t, negb (String.eqb t "object")) false = false →
             getProp dynamicValue "value"
             = getObjectPropertyValue property (split slash (value_path extension))
             ∧ getProp dynamicValue "displayName"
               = whenSet (value_title extension)
                   (λ path, getObjectPropertyValue property (split slash path))
                   (getProp dynamicValue "value"))
          ∧ getProp dynamicValue "description"
            = whenSet (value_description extension)
                (λ path, getObjectPropertyValue property (split slash path))
                JUndefined
          ∧ (∀ path,
               value_selectable extension = Some path → path ≠ "" →
               nullish (getObjectPropertyValue property (split slash path)) = false →
               getProp dynamicValue "disabled"
               = JBool (negb (truthy
                   (getObjectPropertyValue property (split slash path)))))
          ∧ (isSet (value_selectable extension) = false
             ∨ (∃ path, value_selectable extension = Some path
                  ∧ nullish (getObjectPropertyValue property (split slash path)) = true) →
             getProp dynamicValue "disabled" = JBool false).
Proof.
  intros Hexec Hcollection Hitems.
  exists (map (toDynamicValue extension parameterArrayType) items).
  split; [|split].
  - unfold getLegacyDynamicValues. rewrite Hexec. simpl.
    unfold legacyValuesOf. rewrite collection_located, Hcollection.
    destruct items as [|item items']; [done|]. reflexivity.
  - apply length_map.
  - intros i property Hi.
    exists (toDynamicValue extension parameterArrayType property).
    split.
    { change (map ?f ?l) with (f <$> l). by rewrite list_lookup_fmap, Hi. }
    unfold toDynamicValue.
    destruct (whenSet parameterArrayType _ _) eqn:Hkind.
    + repeat split; try done.
      * intros path Hpath Hne Hdefined.
        unfold whenSet, isNullOrUndefined. rewrite Hpath.
        apply String.eqb_neq in Hne. rewrite Hne. simpl.
        by rewrite Hdefined.
      * intros [Hunset | (path & Hpath & Hundefined)].
        -- unfold isSet, whenSet in *.
           destruct (value_selectable extension) as [path|]; [|done].
           by destruct (String.eqb path "").
        -- unfold whenSet, isNullOrUndefined. rewrite Hpath.
           destruct (String.eqb path ""); [done|]. simpl. by rewrite Hundefined.
    + repeat split; try done.
      * intros path Hpath Hne Hdefined.
        unfold whenSet, isNullOrUndefined. rewrite Hpath.
        apply String.eqb_neq in Hne. rewrite Hne. simpl.
        by rewrite Hdefined.
      * intros [Hunset | (path & Hpath & Hundefined)].
        -- unfold isSet, whenSet in *.
           destruct (value_selectable extension) as [path|]; [|done].
           by destruct (String.eqb path "").
        -- unfold whenSet, isNullOrUndefined. rewrite Hpath.
           destruct (String.eqb path ""); [done|]. simpl. by rewrite Hundefined.
Qed.

(** *** Routing *)

(** C7: on a managed-identity connection exactly one request is handed
    to the HTTP client, whatever [parameters.method] names: a POST to
    [<baseUrl>/dynamicInvoke] with an [api-version] query parameter and
    the content [{ request: { method, path, body, queries, headers },
    properties: managedIdentityProperties }], the five fields read from
    [parameters]. *)
Theorem executeAzureDynamicApi_managed_identity_post
    (options : BaseConnectorServiceOptions) (connectionId connectorId : string)
    (parameters : gmap string JSONValue) (managedIdentityProperties : JSONValue) :
  ∃ request : HttpRequestOptions,
    fst (_executeAzureDynamicApi options connectionId connectorId parameters
           true managedIdentityProperties)
    = [POST request]
    ∧ uri request = baseUrl options +:+ "/dynamicInvoke"
    ∧ queryParameters request
      = {[ "api-version" :=
             JStr (ApiHubServiceDetails.apiVersion (apiHubServiceDetails options)) ]}
    ∧ content request
      = Some (JObj {[ "request" :=
                        JObj {[ "method" := default JUndefined (parameters !! "method");
                                "path" := default JUndefined (parameters !! "path");
                                "body" := default JUndefined (parameters !! "body");
                                "queries" := default JUndefined (parameters !! "queries");
                                "headers" := default JUndefined (parameters !! "headers") ]};
                      "properties" := managedIdentityProperties ]}).
Proof.
  exists (dynamicInvokeRequest options parameters managedIdentityProperties).
  repeat split.
Qed.


(** *** The invoke parameters *)

Lemma ownEntries_falsy v : truthy v = false → ownEntries v = ∅.
Proof.
  intros Hv%falsy_values.
  by destruct Hv as [-> | [-> | [-> | [-> | ->]]]].
Qed.

(** The loop writes to the object at [invokeParameters] only. *)
Lemma assignDefined_frame entries invokeParameters σ ref :
  ref ≠ invokeParameters →
  (assignDefined entries invokeParameters σ).1 !! ref = σ !! ref.
Proof.
  intros Href. revert σ.
  induction entries as [|[parameterName entry] rest IH]; intros σ; simpl.
  - reflexivity.
  - destruct (readProp entry "value") as [value|ex]; [|reflexivity].
    rewrite IH. destruct value; try reflexivity;
      unfold setProperty; by rewrite lookup_alter_ne.
Qed.

(** On entries that can be destructured the loop runs to its end, and
    the object at [invokeParameters] then holds, under every key, the
    [value] of the entry of that key when it is not [undefined], and
    what it held before otherwise. *)
Lemma assignDefined_merges entries invokeParameters σ object :
  σ !! invokeParameters = Some object →
  NoDup entries.*1 →
  (∀ parameterName entry, (parameterName, entry) ∈ entries → nullish entry = false) →
  ∃ merged,
    assignDefined entries invokeParameters σ = (<[invokeParameters := merged]> σ, Ok ())
    ∧ ∀ k,
        merged !! k
        = match (list_to_map entries : gmap string JSONValue) !! k with
          | Some entry =>
              match getProp entry "value" with
              | JUndefined => object !! k
              | value => Some value
              end
          | None => object !! k
          end.
Proof.
  revert σ object.
  induction entries as [|[parameterName entry] rest IH];
    intros σ object Hobject Hnodup Hentries; simpl.
  - exists object. split; [by rewrite insert_id|]. intros k. by rewrite lookup_empty.
  - apply NoDup_cons in Hnodup as [Hfresh Hnodup].
    assert (Hentry : nullish entry = false).
    { apply (Hentries parameterName). left. }
    unfold readProp. rewrite Hentry.
    set (value := getProp entry "value").
    set (σ1 := match value with
               | JUndefined => σ
               | _ => setProperty σ invokeParameters parameterName value
               end).
    set (object1 := match value with
                    | JUndefined => object
                    | _ => <[parameterName := value]> object
                    end).
    assert (Hσ1 : σ1 !! invokeParameters = Some object1).
    { subst σ1 object1. destruct value; try done;
        unfold setProperty; by rewrite lookup_alter_eq, Hobject. }
    assert (Hsame : ∀ merged, <[invokeParameters := merged]> σ1
                              = <[invokeParameters := merged]> σ).
    { intros merged. subst σ1. destruct value; try done;
        unfold setProperty; apply map_eq; intros ref;
        (destruct (decide (ref = invokeParameters)) as [->|Hne];
         [by rewrite !lookup_insert_eq
         |by rewrite !lookup_insert_ne, lookup_alter_ne]). }
    destruct (IH σ1 object1 Hσ1 Hnodup) as (merged & Hrun & Hmerged).
    { intros k e Hin. apply (Hentries k). by right. }
    exists merged. split; [by rewrite Hrun, Hsame|].
    intros k. rewrite Hmerged.
    destruct (decide (k = parameterName)) as [->|Hne].
    + rewrite lookup_insert_eq.
      rewrite (not_elem_of_list_to_map_1 _ _ Hfresh).
      subst object1. fold value.
      destruct value; try done; by rewrite lookup_insert_eq.
    + rewrite lookup_insert_ne by done.
      destruct (list_to_map rest !! k) as [e|]; [destruct (getProp e "value")|];
        try done; subst object1;
        (destruct value; try done; by rewrite lookup_insert_ne).
Qed.

(** C8: [_getInvokeParameters] never writes to an object that existed
    before the call, the caller's [parameters] among them, whatever the
    dynamic state is; and when the dynamic state can be read (it is
    neither [null] nor [undefined], and neither is any of its additional
    parameters), the call returns a new object that holds, under every
    key, the dynamic-state value of that key when there is one and it is
    not [undefined] ([null] included), and the caller's entry
    otherwise. *)
Theorem getInvokeParameters_merges_defined
    (σ : gmap nat (gmap string JSONValue)) (parameters : nat)
    (dynamicState : JSONValue) (original : gmap string JSONValue) :
  σ !! parameters = Some original →
  (∀ ref object,
     σ !! ref = Some object →
     (_getInvokeParameters σ parameters dynamicState).1 !! ref = Some object)
  ∧ (nullish dynamicState = false →
     (∀ k entry,
        ownEntries (getProp dynamicState "parameters") !! k = Some entry →
        nullish entry = false) →
     ∃ σ' invokeParameters merged,
       _getInvokeParameters σ parameters dynamicState = (σ', Ok invokeParameters)
       ∧ σ !! invokeParameters = None
       ∧ σ' !! invokeParameters = Some merged
       ∧ σ' !! parameters = Some original
       ∧ (∀ k entry,
            ownEntries (getProp dynamicState "parameters") !! k = Some entry →
            getProp entry "value" ≠ JUndefined →
            merged !! k = Some (getProp entry "value"))
       ∧ (∀ k entry,
            ownEntries (getProp dynamicState "parameters") !! k = Some entry →
            getProp entry "value" = JNull →
            merged !! k = Some JNull)
       ∧ (∀ k entry,
            ownEntries (getProp dynamicState "parameters") !! k = Some entry →
            getProp entry "value" = JUndefined →
            merged !! k = original !! k)
       ∧ (∀ k,
            ownEntries (getProp dynamicState "parameters") !! k = None →
            merged !! k = original !! k)).
Proof.
  intros Hparameters.
  assert (Hfresh : σ !! fresh (dom σ) = None).
  { apply not_elem_of_dom, is_fresh. }
  split.
  - intros ref object Href.
    assert (Hne : ref ≠ fresh (dom σ)) by congruence.
    unfold _getInvokeParameters.
    destruct (readProp dynamicState "parameters") as [additional|ex]; simpl.
    + destruct (truthy additional).
      * pose proof (assignDefined_frame
                      (map_to_list (ownEntries additional)) (fresh (dom σ))
                      (<[fresh (dom σ) := default ∅ (σ !! parameters)]> σ)
                      ref Hne) as Hframe.
        destruct (assignDefined _ _ _) as [σ2 done']. simpl in *.
        by rewrite Hframe, lookup_insert_ne.
      * simpl. by rewrite lookup_insert_ne.
    + by rewrite lookup_insert_ne.
  - intros Hstate Hentries.
    unfold _getInvokeParameters, readProp. rewrite Hstate, Hparameters. simpl.
    set (additional := getProp dynamicState "parameters") in *.
    set (invokeParameters := fresh (dom σ)) in *.
    assert (Hparameters' : parameters ≠ invokeParameters) by congruence.
    destruct (truthy additional) eqn:Htruthy.
    + destruct (assignDefined_merges
                  (map_to_list (ownEntries additional)) invokeParameters
                  (<[invokeParameters := original]> σ) original)
        as (merged & Hrun & Hmerged).
      { apply lookup_insert_eq. }
      { apply NoDup_fst_map_to_list. }
      { intros k entry Hin%elem_of_map_to_list. eauto. }
      rewrite Hrun. rewrite list_to_map_to_list in Hmerged.
      exists (<[invokeParameters := merged]> (<[invokeParameters := original]> σ)),
             invokeParameters, merged.
      split; [done|]. split; [done|].
      split; [apply lookup_insert_eq|].
      split; [by rewrite !lookup_insert_ne|].
      repeat split.
      * intros k entry Hk Hvalue. rewrite Hmerged, Hk.
        by destruct (getProp entry "value").
      * intros k entry Hk Hvalue. by rewrite Hmerged, Hk, Hvalue.
      * intros k entry Hk Hvalue. by rewrite Hmerged, Hk, Hvalue.
      * intros k Hk. by rewrite Hmerged, Hk.
    + exists (<[invokeParameters := original]> σ), invokeParameters, original.
      split; [done|]. split; [done|].
      split; [apply lookup_insert_eq|].
      split; [by rewrite lookup_insert_ne|].
      rewrite (ownEntries_falsy _ Htruthy).
      repeat split; intros k; try intros entry; by rewrite ?lookup_empty.
Qed.


(** *** The response envelope *)

Lemma strictEqualsString_spec v literal :
  strictEqualsString v literal = true ↔ v = JStr literal.
Proof.
  destruct v; simpl; try (split; [discriminate|congruence]).
  rewrite String.eqb_eq. split; congruence.
Qed.

Lemma strictEqualsString_false v literal :
  v ≠ JStr literal → strictEqualsString v literal = false.
Proof.
  intros Hv. apply not_true_is_false. by rewrite strictEqualsString_spec.
Qed.

Lemma envelopeOf_not_nullish raw :
  nullish raw = false → nullish (envelopeOf raw) = false.
Proof.
  intros Hraw. unfold envelopeOf, coalesce.
  by destruct (nullish (getProp raw "response")) eqn:Hresponse.
Qed.

Lemma getResponseFromDynamicApi_ok responseJson requestUrl :
  nullish responseJson = false →
  getProp (envelopeOf responseJson) "statusCode" = JStr "OK" →
  _getResponseFromDynamicApi responseJson requestUrl
  = Ok (getProp (envelopeOf responseJson) "body").
Proof.
  intros Hraw Hstatus.
  unfold _getResponseFromDynamicApi, readProp. rewrite Hraw. simpl.
  fold (envelopeOf responseJson). by rewrite Hstatus.
Qed.

(** C4, as amended: for a raw response that is neither [null] nor
    [undefined], [_getResponseFromDynamicApi] returns the body of the
    envelope when its [statusCode] is the string OK; for any other
    envelope that has a body it throws a [ConnectorServiceException]
    with code [API_EXECUTION_FAILED_WITH_ERROR] and data
    [{ connectorResponse: envelope }], whose message is the error
    message, followed by a space and the formatted diagnostic template
    when the headers of the envelope carry a client request id.  The
    error message is the formatted error-code template when the envelope
    has a [statusCode] and its body a truthy [message], else
    [body.error.message] when present, else the default that names the
    request URL. *)
Theorem getResponseFromDynamicApi_unwraps
    (responseJson : JSONValue) (requestUrl : string) :
  nullish responseJson = false →
  (getProp (envelopeOf responseJson) "statusCode" = JStr "OK" →
   _getResponseFromDynamicApi responseJson requestUrl
   = Ok (getProp (envelopeOf responseJson) "body"))
  ∧ (getProp (envelopeOf responseJson) "statusCode" ≠ JStr "OK" →
     nullish (getProp (envelopeOf responseJson) "body") = false →
     ∃ errorMessage : JSONValue,
       let envelope := envelopeOf responseJson in
       let body := getProp envelope "body" in
       let error := getProp body "error" in
       let clientRequestId :=
         getClientRequestIdFromHeaders (getProp envelope "headers") in
       _getResponseFromDynamicApi responseJson requestUrl
       = Throw (ConnectorServiceException
                  API_EXECUTION_FAILED_WITH_ERROR
                  (if truthy clientRequestId
                   then JStr (toStringJS errorMessage +:+ " " +:+
                              formatMessage
                                "More diagnostic information: x-ms-client-request-id is '{clientRequestId}'."
                                {[ "clientRequestId" := clientRequestId ]})
                   else errorMessage)
                  (JObj {[ "connectorResponse" := envelope ]}) None)
       ∧ (getProp envelope "statusCode" ≠ JUndefined →
          truthy (getProp body "message") = true →
          errorMessage
          = JStr (formatMessage
                    "Error code: '{errorCode}', Message: '{message}'."
                    {[ "errorCode" := getProp envelope "statusCode";
                       "message" := getProp body "message" ]}))
       ∧ (getProp envelope "statusCode" = JUndefined
          ∨ truthy (getProp body "message") = false →
          (nullish error = false → nullish (getProp error "message") = false →
           errorMessage = getProp error "message")
          ∧ (nullish error = true ∨ nullish (getProp error "message") = true →
             errorMessage
             = JStr ("Error executing the api - " +:+ formatArg (JStr requestUrl))))).
Proof.
  intros Hraw.
  pose proof (envelopeOf_not_nullish _ Hraw) as Henvelope.
  unfold _getResponseFromDynamicApi, readProp. rewrite Hraw. simpl.
  fold (envelopeOf responseJson).
  split.
  - intros Hstatus. rewrite Hstatus. reflexivity.
  - intros Hstatus Hbody.
    rewrite (strictEqualsString_false _ _ Hstatus).
    unfold _getErrorMessageFromConnectorResponse, readProp.
    rewrite Henvelope. simpl. rewrite Hbody. simpl.
    rewrite formatMessage_url.
    eexists. split; [reflexivity|].
    split.
    + intros Hdefined Hmessage. rewrite Hmessage.
      by destruct (getProp (envelopeOf responseJson) "statusCode").
    + intros Hnone.
      assert (Hcond :
        match getProp (envelopeOf responseJson) "statusCode" with
        | JUndefined => false
        | _ => true
        end
        && truthy (getProp (getProp (envelopeOf responseJson) "body") "message")
        = false).
      { destruct Hnone as [-> | ->]; [done|]. apply andb_false_r. }
      rewrite Hcond. unfold coalesce. split.
      * intros -> ->. reflexivity.
      * intros [-> | Hmissing]; [done|].
        destruct (nullish (getProp _ "error")); [done|]. by rewrite Hmissing.
Qed.

(** A response whose envelope does not say OK makes the normaliser
    throw, whatever else it holds. *)
Lemma getResponseFromDynamicApi_throws responseJson requestUrl :
  getProp (envelopeOf responseJson) "statusCode" ≠ JStr "OK" →
  ∃ ex, _getResponseFromDynamicApi responseJson requestUrl = Throw ex.
Proof.
  intros Hstatus.
  unfold _getResponseFromDynamicApi, readProp.
  destruct (nullish responseJson) eqn:Hraw; [by eexists|]. simpl.
  fold (envelopeOf responseJson).
  rewrite (strictEqualsString_false _ _ Hstatus).
  destruct (_getErrorMessageFromConnectorResponse _ _ _); by eexists.
Qed.

(** *** What reaches the caller *)

(** C2, as amended: on the managed-identity route, when the POST
    completes with a raw response, both operations see it through the
    normaliser only: a response whose envelope's [statusCode] is not OK
    is rejected with a [ConnectorServiceException] that carries the
    normaliser's error as its cause, and a response whose envelope says
    OK is resolved from the body of its envelope. *)
Theorem managed_identity_response_is_unwrapped
    (options : BaseConnectorServiceOptions) (connectionId connectorId : string)
    (parameters : gmap string JSONValue)
    (valuesExtension : LegacyDynamicValuesExtension) (parameterArrayType : option string)
    (schemaExtension : LegacyDynamicSchemaExtension)
    (managedIdentityProperties raw : JSONValue) :
  post (httpClient options)
       (dynamicInvokeRequest options parameters managedIdentityProperties)
  = Returned (Fulfilled raw) →
  (getProp (envelopeOf raw) "statusCode" ≠ JStr "OK" →
   ∃ message data cause,
     (getLegacyDynamicValues options connectionId connectorId parameters
        valuesExtension parameterArrayType true managedIdentityProperties).2
     = Rejected (ConnectorServiceException API_EXECUTION_FAILED message data (Some cause))
     ∧ (getLegacyDynamicSchema options connectionId connectorId parameters
          schemaExtension true managedIdentityProperties).2
       = Rejected (ConnectorServiceException API_EXECUTION_FAILED message data (Some cause))
     ∧ _getResponseFromDynamicApi raw (dynamicInvokeUri options) = Throw cause)
  ∧ (nullish raw = false →
     getProp (envelopeOf raw) "statusCode" = JStr "OK" →
     (getLegacyDynamicValues options connectionId connectorId parameters
        valuesExtension parameterArrayType true managedIdentityProperties).2
     = settle (legacyValuesOf valuesExtension parameterArrayType
                 (getProp (envelopeOf raw) "body"))
     ∧ (getLegacyDynamicSchema options connectionId connectorId parameters
          schemaExtension true managedIdentityProperties).2
       = settle (legacySchemaOf schemaExtension (getProp (envelopeOf raw) "body"))).
Proof.
  intros Hpost.
  unfold getLegacyDynamicValues, getLegacyDynamicSchema, _executeAzureDynamicApi.
  simpl. rewrite Hpost. split.
  - intros Hstatus.
    destruct (getResponseFromDynamicApi_throws raw (dynamicInvokeUri options) Hstatus)
      as [ex Hex].
    rewrite Hex. simpl. by eexists _, _, ex.
  - intros Hraw Hstatus.
    by rewrite (getResponseFromDynamicApi_ok raw (dynamicInvokeUri options) Hraw Hstatus).
Qed.

(** *** Failures of the dispatch *)

(** Outside the managed-identity route, what the client throws before it
    returns a promise is caught and wrapped. *)
Lemma thrown_by_get_is_wrapped options connectionId connectorId parameters
    managedIdentityProperties method ex :
  parameters !! "method" = Some (JStr method) →
  toLowerCase method = "get" →
  (∀ request, get (httpClient options) request = Threw ex) →
  (_executeAzureDynamicApi options connectionId connectorId parameters
     false managedIdentityProperties).2
  = Rejected (executionFailed (JStr method)
                (requestUri options connectionId connectorId parameters false)
                parameters ex).
Proof.
  intros Hmethod Hlower Hget.
  unfold _executeAzureDynamicApi, param. rewrite Hmethod. simpl.
  rewrite Hlower. simpl. by rewrite Hget.
Qed.

(** A method other than get, post and put is refused, and the refusal is
    wrapped. *)
Lemma unsupported_method_is_wrapped options connectionId connectorId parameters
    managedIdentityProperties method :
  parameters !! "method" = Some (JStr method) →
  toLowerCase method ≠ "get" →
  toLowerCase method ≠ "post" →
  toLowerCase method ≠ "put" →
  _executeAzureDynamicApi options connectionId connectorId parameters
    false managedIdentityProperties
  = ([], Rejected (executionFailed (JStr method)
                     (requestUri options connectionId connectorId parameters false)
                     parameters
                     (UnsupportedException
                        ("Unsupported dynamic call connector method - '" +:+
                         method +:+ "'")))).
Proof.
  intros Hmethod Hget%String.eqb_neq Hpost%String.eqb_neq Hput%String.eqb_neq.
  unfold _executeAzureDynamicApi, param. rewrite Hmethod. simpl.
  by rewrite Hget, Hpost, Hput.
Qed.

(** The promise the client returns is handed back as it is: when it
    rejects, the rejection is the caller's, unwrapped. *)
Lemma returned_promise_is_not_caught options connectionId connectorId parameters
    managedIdentityProperties method promise :
  parameters !! "method" = Some (JStr method) →
  toLowerCase method = "get" →
  (∀ request, get (httpClient options) request = Returned promise) →
  (_executeAzureDynamicApi options connectionId connectorId parameters
     false managedIdentityProperties).2
  = promise.
Proof.
  intros Hmethod Hlower Hget.
  unfold _executeAzureDynamicApi, param. rewrite Hmethod. simpl.
  rewrite Hlower. simpl. by rewrite Hget.
Qed.

(** *** The schema path *)

(** When the last segment of the value path is "properties", the path
    handed to the extractor is that segment alone. *)
Lemma legacySchemaOf_trailing_properties path init segment response :
  path ≠ "" →
  split slash path = (init ++ [segment])%list →
  equals segment "properties" = true →
  truthy response = true →
  legacySchemaOf {| schema_value_path := Some path |} response
  = Ok (coalesce (getObjectPropertyValue response [segment]) JNull).
Proof.
  intros Hpath%String.eqb_neq Hsplit Hsegment Hresponse.
  unfold legacySchemaOf, whenSet. cbn [schema_value_path].
  rewrite Hresponse, Hpath. cbn [negb].
  rewrite Hsplit, splice_last_removed, last_last, Hsegment, length_app.
  cbn [length fst].
  by replace (length init + 1 =? 0)%nat with false
    by (symmetry; apply Nat.eqb_neq; lia).
Qed.

End Properties.

(** * The examples, on the stand-ins *)

(** C1: at the value path schema/properties and a body that holds the
    schema under [schema], [getLegacyDynamicSchema] fulfils with [null],
    although the path without its trailing segment leads to the schema
    object: the extractor is handed the segment that [splice] removed, not
    the segments that are left. *)
Theorem schema_path_keeps_removed_segment :
  (@getLegacyDynamicSchema specCollaborators
     (exampleOptions (Returned (Fulfilled (okEnvelope schemaBody))))
     "conn" "connectionProviders/sql" getItems schemaUnderProperties
     true JUndefined).2
  = Fulfilled JNull
  ∧ split slash "schema/properties" = ["schema"; "properties"]
  ∧ splice (-1) 1 ["schema"; "properties"] = (["properties"], ["schema"])
  ∧ getObjectPropertyValue schemaBody ["schema"] = tableSchema
  ∧ tableSchema ≠ JNull.
Proof. repeat split; try (vm_compute; reflexivity). discriminate. Qed.

(** C2 does not hold on the generic route: a completed response whose
    [statusCode] is NotFound is not normalised; the schema operation wraps
    it as a schema and the values operation returns it. *)
Lemma generic_route_returns_failed_envelope :
  getProp (envelopeOf notFoundEnvelope) "statusCode" = JStr "NotFound"
  ∧ specIsArmResourceId "connectionProviders/sql" = false
  ∧ (@getLegacyDynamicSchema specCollaborators
       (exampleOptions (Returned (Fulfilled notFoundEnvelope)))
       "conn" "connectionProviders/sql" getItems wholeBodySchema false JUndefined).2
    = Fulfilled (JObj {[ "properties" := notFoundEnvelope; "type" := JStr "object" ]})
  ∧ (@getLegacyDynamicValues specCollaborators
       (exampleOptions (Returned (Fulfilled notFoundEnvelope)))
       "conn" "connectionProviders/sql" getItems wholeBodyValues None false JUndefined).2
    = Fulfilled notFoundEnvelope.
Proof. repeat split; vm_compute; reflexivity. Qed.

(** C3: a promise of the client that rejects, on the generic and on the
    ARM-resource route, reaches the caller as the transport's own error and
    not as a [ConnectorServiceException]; the managed-identity route, which
    awaits the promise, wraps the same rejection. *)
Theorem rejected_transport_promise_escapes :
  (@_executeAzureDynamicApi specCollaborators
     (exampleOptions (Returned (Rejected socketHangUp)))
     "conn" "connectionProviders/sql" getItems false JUndefined).2
  = Rejected socketHangUp
  ∧ specIsArmResourceId armConnectorId = true
  ∧ (@_executeAzureDynamicApi specCollaborators
       (exampleOptions (Returned (Rejected socketHangUp)))
       "conn" armConnectorId getItems false JUndefined).2
    = Rejected socketHangUp
  ∧ (@_executeAzureDynamicApi specCollaborators
       (exampleOptions (Returned (Rejected socketHangUp)))
       "conn" "connectionProviders/sql" getItems true JUndefined).2
    = Rejected
        (ConnectorServiceException
           API_EXECUTION_FAILED (JStr "socket hang up")
           (JObj {[ "requestMethod" := JStr "get";
                    "uri" := JStr "https://designer.example/runtime/dynamicInvoke";
                    "inputPath" := JStr "/items" ]})
           (Some socketHangUp)).
Proof. repeat split; vm_compute; reflexivity. Qed.

(** C4 does not hold of the message: the envelope has no [message], its
    body has none either, and [body.error.message] is "not found"; the
    message of the exception is that text followed by the diagnostic
    sentence of the client request id. *)
Lemma unwrap_message_carries_request_id :
  envelopeOf notFoundWithRequestId = notFoundWithRequestId
  ∧ getProp notFoundWithRequestId "statusCode" = JStr "NotFound"
  ∧ getProp notFoundWithRequestId "message" = JUndefined
  ∧ getProp (getProp notFoundWithRequestId "body") "message" = JUndefined
  ∧ getProp (getProp (getProp notFoundWithRequestId "body") "error") "message"
    = JStr "not found"
  ∧ @_getResponseFromDynamicApi specCollaborators notFoundWithRequestId "https://x/y"
    = Throw (ConnectorServiceException
               API_EXECUTION_FAILED_WITH_ERROR
               (JStr "not found More diagnostic information: x-ms-client-request-id is {clientRequestId}.")
               (JObj {[ "connectorResponse" := notFoundWithRequestId ]}) None)
  ∧ JStr "not found More diagnostic information: x-ms-client-request-id is {clientRequestId}."
    ≠ JStr "not found".
Proof. repeat split; try (vm_compute; reflexivity). discriminate. Qed.

(** An envelope without a body: the destructuring of the body throws a
    [TypeError] before any [ConnectorServiceException] is built. *)
Example unwrap_without_body :
  ∃ message,
    @_getResponseFromDynamicApi specCollaborators
      (JObj {[ "statusCode" := JStr "NotFound" ]}) "https://x/y"
    = Throw (TypeError message).
Proof. eexists. vm_compute. reflexivity. Qed.

Example unwrap_ok :
  @_getResponseFromDynamicApi specCollaborators
    (JObj {[ "statusCode" := JStr "OK"; "body" := JObj {[ "x" := JNum 1 ]} ]}) "https://x/y"
  = Ok (JObj {[ "x" := JNum 1 ]}).
Proof. vm_compute. reflexivity. Qed.

Example unwrap_numeric_status :
  ∃ data,
    @_getResponseFromDynamicApi specCollaborators
      (JObj {[ "statusCode" := JNum 404;
               "body" := JObj {[ "message" := JStr "gone" ]} ]}) "https://x/y"
    = Throw (ConnectorServiceException
               API_EXECUTION_FAILED_WITH_ERROR
               (JStr "Error code: {errorCode}, Message: {message}.") data None).
Proof. eexists. vm_compute. reflexivity. Qed.

(** The allow-list test on an entry of the designer's list, in upper
    case. *)
Lemma isClientSupportedOperation_case_insensitive_witness :
  caseVariant "connectionProviders/xmlOperations" "CONNECTIONPROVIDERS/XMLOPERATIONS"
  ∧ caseVariant "xmlTransform" "XMLTRANSFORM"
  ∧ _isClientSupportedOperation (exampleOptions (Returned Pending))
      "CONNECTIONPROVIDERS/XMLOPERATIONS" "XMLTRANSFORM"
    = _isClientSupportedOperation (exampleOptions (Returned Pending))
        "connectionProviders/xmlOperations" "xmlTransform".
Proof.
  pose proof (caseVariant_toUpperCase "connectionProviders/xmlOperations") as Hc.
  pose proof (caseVariant_toUpperCase "xmlTransform") as Ho.
  split; [exact Hc|]. split; [exact Ho|].
  exact (proj2 (isClientSupportedOperation_case_insensitive
                  (exampleOptions (Returned Pending)) _ _ _ _ Hc Ho)).
Defined.

(** A successful response whose body is 0. *)
Lemma getLegacyDynamicSchema_falsy_body_witness :
  @_executeAzureDynamicApi specCollaborators
    (exampleOptions (Returned (Fulfilled (okEnvelope (JNum 0)))))
    "conn" "connectionProviders/sql" getItems true JUndefined
  = ([POST (dynamicInvokeRequest
              (exampleOptions (Returned (Fulfilled (okEnvelope (JNum 0)))))
              getItems JUndefined)],
     Fulfilled (JNum 0))
  ∧ @getLegacyDynamicSchema specCollaborators
      (exampleOptions (Returned (Fulfilled (okEnvelope (JNum 0)))))
      "conn" "connectionProviders/sql" getItems wholeBodySchema true JUndefined
    = ([POST (dynamicInvokeRequest
                (exampleOptions (Returned (Fulfilled (okEnvelope (JNum 0)))))
                getItems JUndefined)],
       Fulfilled JNull).
Proof.
  assert (Hexec :
    @_executeAzureDynamicApi specCollaborators
      (exampleOptions (Returned (Fulfilled (okEnvelope (JNum 0)))))
      "conn" "connectionProviders/sql" getItems true JUndefined
    = ([POST (dynamicInvokeRequest
                (exampleOptions (Returned (Fulfilled (okEnvelope (JNum 0)))))
                getItems JUndefined)],
       Fulfilled (JNum 0))) by reflexivity.
  split; [exact Hexec|].
  apply (@getLegacyDynamicSchema_falsy_body specCollaborators _ _ _ _ _ _ _ _
           (JNum 0) Hexec).
  do 3 right. left. reflexivity.
Defined.

(** A successful response whose collection is the empty array. *)
Lemma getLegacyDynamicValues_pass_through_witness :
  candidateCollection itemsExtension emptyItemsBody = JArr []
  ∧ @getLegacyDynamicValues specCollaborators
      (exampleOptions (Returned (Fulfilled (okEnvelope emptyItemsBody))))
      "conn" "connectionProviders/sql" getItems itemsExtension None true JUndefined
    = ([POST (dynamicInvokeRequest
                (exampleOptions (Returned (Fulfilled (okEnvelope emptyItemsBody))))
                getItems JUndefined)],
       Fulfilled emptyItemsBody).
Proof.
  assert (Hcollection : candidateCollection itemsExtension emptyItemsBody = JArr [])
    by reflexivity.
  split; [exact Hcollection|].
  apply (@getLegacyDynamicValues_pass_through specCollaborators).
  - reflexivity.
  - right. right. exact Hcollection.
Defined.

(** A successful response with two items, the first of which says it is
    not enabled. *)
Lemma getLegacyDynamicValues_maps_collection_witness :
  ∃ values,
    @getLegacyDynamicValues specCollaborators
      (exampleOptions (Returned (Fulfilled (okEnvelope itemsBody))))
      "conn" "connectionProviders/sql" getItems itemsExtension None true JUndefined
    = ([POST (dynamicInvokeRequest
                (exampleOptions (Returned (Fulfilled (okEnvelope itemsBody))))
                getItems JUndefined)],
       Fulfilled (JArr values))
    ∧ length values = 2%nat.
Proof.
  destruct (@getLegacyDynamicValues_maps_collection specCollaborators
              (exampleOptions (Returned (Fulfilled (okEnvelope itemsBody))))
              "conn" "connectionProviders/sql" getItems itemsExtension None
              true JUndefined
              [POST (dynamicInvokeRequest
                       (exampleOptions (Returned (Fulfilled (okEnvelope itemsBody))))
                       getItems JUndefined)]
              itemsBody
              [ JObj {[ "id" := JNum 1; "name" := JStr "one"; "enabled" := JBool false ]};
                JObj {[ "id" := JNum 2; "name" := JStr "two" ]} ])
    as (values & Hvalues & Hlength & _).
  - reflexivity.
  - reflexivity.
  - discriminate.
  - exists values. split; [exact Hvalues|exact Hlength].
Defined.

(** The dynamic state sets [a] to [null]: the new object holds [null]
    under [a], the caller's object still holds 1. *)
Lemma getInvokeParameters_merges_defined_witness :
  callerStore !! 0%nat = Some ({[ "a" := JNum 1; "b" := JNum 2 ]} : gmap string JSONValue)
  ∧ ∃ σ' invokeParameters merged,
      _getInvokeParameters callerStore 0%nat nullForA = (σ', Ok invokeParameters)
      ∧ σ' !! invokeParameters = Some merged
      ∧ σ' !! 0%nat = Some ({[ "a" := JNum 1; "b" := JNum 2 ]} : gmap string JSONValue)
      ∧ merged !! "a" = Some JNull
      ∧ merged !! "b" = Some (JNum 2).
Proof.
  assert (Hparameters :
    callerStore !! 0%nat
    = Some ({[ "a" := JNum 1; "b" := JNum 2 ]} : gmap string JSONValue))
    by reflexivity.
  split; [exact Hparameters|].
  destruct (getInvokeParameters_merges_defined callerStore 0%nat nullForA _ Hparameters)
    as [_ Hmerge].
  destruct Hmerge as (σ' & r & merged & Hrun & _ & Hnew & Hold & _ & Hnull & Hundefined & _).
  - reflexivity.
  - intros k entry.
    change (ownEntries (getProp nullForA "parameters"))
      with ({[ "a" := JObj {[ "value" := JNull ]}; "b" := JObj ∅ ]}
            : gmap string JSONValue).
    rewrite lookup_insert_Some, lookup_singleton_Some.
    intros [[_ <-] | [_ [_ <-]]]; reflexivity.
  - exists σ', r, merged.
    split; [exact Hrun|]. split; [exact Hnew|]. split; [exact Hold|]. split.
    + apply (Hnull "a" (JObj {[ "value" := JNull ]})); reflexivity.
    + rewrite (Hundefined "b" (JObj ∅)); reflexivity.
Defined.

(** A failed call on the managed-identity route. *)
Lemma managed_identity_response_is_unwrapped_witness :
  post (httpClient (exampleOptions (Returned (Fulfilled notFoundEnvelope))))
       (dynamicInvokeRequest (exampleOptions (Returned (Fulfilled notFoundEnvelope)))
          getItems JUndefined)
  = Returned (Fulfilled notFoundEnvelope)
  ∧ getProp (envelopeOf notFoundEnvelope) "statusCode" ≠ JStr "OK"
  ∧ ∃ message data cause,
      (@getLegacyDynamicSchema specCollaborators
         (exampleOptions (Returned (Fulfilled notFoundEnvelope)))
         "conn" "connectionProviders/sql" getItems wholeBodySchema true JUndefined).2
      = Rejected (ConnectorServiceException API_EXECUTION_FAILED message data (Some cause)).
Proof.
  split; [reflexivity|]. split; [discriminate|].
  destruct (@managed_identity_response_is_unwrapped specCollaborators
              (exampleOptions (Returned (Fulfilled notFoundEnvelope)))
              "conn" "connectionProviders/sql" getItems wholeBodyValues None
              wholeBodySchema JUndefined notFoundEnvelope eq_refl)
    as [Hfailed _].
  destruct Hfailed as (message & data & cause & _ & Hschema & _); [discriminate|].
  exists message, data, cause. exact Hschema.
Defined.

(** A failed call with a client request id. *)
Lemma getResponseFromDynamicApi_unwraps_witness :
  nullish notFoundWithRequestId = false
  ∧ ∃ message,
      @_getResponseFromDynamicApi specCollaborators notFoundWithRequestId "https://x/y"
      = Throw (ConnectorServiceException
                 API_EXECUTION_FAILED_WITH_ERROR message
                 (JObj {[ "connectorResponse" := envelopeOf notFoundWithRequestId ]})
                 None).
Proof.
  split; [reflexivity|].
  destruct (@getResponseFromDynamicApi_unwraps specCollaborators
              notFoundWithRequestId "https://x/y" eq_refl) as [_ Hfailed].
  destruct Hfailed as (errorMessage & Hthrown & _); [discriminate|reflexivity|].
  eexists. exact Hthrown.
Defined.

(** * Construction, the envelope and the allow-list *)

(** X1: the constructor accepts the options exactly when [apiVersion] and
    [baseUrl] are non-empty strings and the HTTP client, the allow-list
    and the two client maps are there (an empty allow-list or map is
    accepted); it then keeps the options as given.  When it throws, the
    message names the first field, in the order of the tests, that is
    missing: that field is missing and every field tested before it is
    there. *)
Theorem constructor_validates (options : ConstructorOptions.t) :
  (constructor options = Service options ↔
   isSet (ConstructorOptions.apiVersion options) = true
   ∧ isSet (ConstructorOptions.baseUrl options) = true
   ∧ is_Some (ConstructorOptions.httpClient options)
   ∧ is_Some (ConstructorOptions.clientSupportedOperations options)
   ∧ is_Some (ConstructorOptions.schemaClient options)
   ∧ is_Some (ConstructorOptions.valuesClient options))
  ∧ (∀ kept, constructor options = Service kept → kept = options)
  ∧ (∀ message,
       constructor options = ArgumentException message →
       (message = "apiVersion required"
        ∧ isSet (ConstructorOptions.apiVersion options) = false)
       ∨ (message = "baseUrl required"
          ∧ isSet (ConstructorOptions.apiVersion options) = true
          ∧ isSet (ConstructorOptions.baseUrl options) = false)
       ∨ (message = "httpClient required"
          ∧ isSet (ConstructorOptions.apiVersion options) = true
          ∧ isSet (ConstructorOptions.baseUrl options) = true
          ∧ ConstructorOptions.httpClient options = None)
       ∨ (message = "clientSupportedOperations required"
          ∧ isSet (ConstructorOptions.apiVersion options) = true
          ∧ isSet (ConstructorOptions.baseUrl options) = true
          ∧ is_Some (ConstructorOptions.httpClient options)
          ∧ ConstructorOptions.clientSupportedOperations options = None)
       ∨ (message = "schemaClient required"
          ∧ isSet (ConstructorOptions.apiVersion options) = true
          ∧ isSet (ConstructorOptions.baseUrl options) = true
          ∧ is_Some (ConstructorOptions.httpClient options)
          ∧ is_Some (ConstructorOptions.clientSupportedOperations options)
          ∧ ConstructorOptions.schemaClient options = None)
       ∨ (message = "valuesClient required"
          ∧ isSet (ConstructorOptions.apiVersion options) = true
          ∧ isSet (ConstructorOptions.baseUrl options) = true
          ∧ is_Some (ConstructorOptions.httpClient options)
          ∧ is_Some (ConstructorOptions.clientSupportedOperations options)
          ∧ is_Some (ConstructorOptions.schemaClient options)
          ∧ ConstructorOptions.valuesClient options = None))
  ∧ (isSet (ConstructorOptions.apiVersion options) = false →
     constructor options = ArgumentException "apiVersion required").
Proof.
  unfold constructor.
  destruct options as [av bu hc ops sc vc]; simpl.
  destruct (isSet av) eqn:Hav, (isSet bu) eqn:Hbu,
    hc as [hc|], ops as [ops|], sc as [sc|], vc as [vc|]; simpl;
    (split; [split; [intros; repeat split; (done || eauto)
                    |intros (? & ? & Hhc & Hops & Hsc & Hvc);
                     try done;
                     try (by destruct Hhc); try (by destruct Hops);
                     try (by destruct Hsc); try (by destruct Hvc)]
           |split; [intros kept Hkept; congruence|split; [|done]]]);
    intros message Hmessage; try discriminate;
    injection Hmessage as <-;
    first [ left; by eauto 10
          | right; left; by eauto 10
          | right; right; left; by eauto 10
          | right; right; right; left; by eauto 10
          | right; right; right; right; left; by eauto 10
          | right; right; right; right; right; by eauto 10 ].
Qed.

Section Envelope.
Context `{!Collaborators}.

(** X2: the normaliser returns a value only for a response whose envelope
    has the string OK as its [statusCode], and the value is then the body
    of that envelope. *)
Theorem getResponseFromDynamicApi_ok_only
    (responseJson : JSONValue) (requestUrl : string) (body : JSONValue) :
  _getResponseFromDynamicApi responseJson requestUrl = Ok body →
  nullish responseJson = false
  ∧ getProp (envelopeOf responseJson) "statusCode" = JStr "OK"
  ∧ body = getProp (envelopeOf responseJson) "body".
Proof.
  unfold _getResponseFromDynamicApi, readProp.
  destruct (nullish responseJson) eqn:Hraw; [discriminate|]. simpl.
  fold (envelopeOf responseJson).
  destruct (strictEqualsString _ "OK") eqn:Hstatus.
  - apply strictEqualsString_spec in Hstatus. intros [= <-]. done.
  - destruct (_getErrorMessageFromConnectorResponse _ _ _); discriminate.
Qed.

(** X3: the normaliser ends in one of three ways: it returns, it throws a
    [TypeError], or it throws a [ConnectorServiceException] with code
    [API_EXECUTION_FAILED_WITH_ERROR], the envelope as its data and no
    cause. *)
Theorem getResponseFromDynamicApi_outcomes
    (responseJson : JSONValue) (requestUrl : string) :
  (∃ body, _getResponseFromDynamicApi responseJson requestUrl = Ok body)
  ∨ (∃ message,
       _getResponseFromDynamicApi responseJson requestUrl = Throw (TypeError message))
  ∨ (∃ message,
       _getResponseFromDynamicApi responseJson requestUrl
       = Throw (ConnectorServiceException
                  API_EXECUTION_FAILED_WITH_ERROR message
                  (JObj {[ "connectorResponse" := envelopeOf responseJson ]}) None)).
Proof.
  unfold _getResponseFromDynamicApi, readProp.
  destruct (nullish responseJson) eqn:Hraw; [right; left; by eexists|]. simpl.
  fold (envelopeOf responseJson).
  destruct (strictEqualsString _ "OK"); [left; by eexists|].
  unfold _getErrorMessageFromConnectorResponse, readProp.
  rewrite (envelopeOf_not_nullish _ Hraw). simpl.
  destruct (nullish (getProp (envelopeOf responseJson) "body"));
    [right; left; by eexists|].
  right. right. by eexists.
Qed.

(** X4: a response that is [null] or [undefined], and a response whose
    envelope does not say OK and has no body, make the normaliser throw a
    [TypeError]. *)
Theorem getResponseFromDynamicApi_type_error
    (responseJson : JSONValue) (requestUrl : string) :
  nullish responseJson = true
  ∨ (getProp (envelopeOf responseJson) "statusCode" ≠ JStr "OK"
     ∧ nullish (getProp (envelopeOf responseJson) "body") = true) →
  ∃ message,
    _getResponseFromDynamicApi responseJson requestUrl = Throw (TypeError message).
Proof.
  unfold _getResponseFromDynamicApi, readProp.
  destruct (nullish responseJson) eqn:Hraw; [by eexists|].
  intros [|[Hstatus Hbody]]; [done|]. simpl.
  fold (envelopeOf responseJson).
  rewrite (strictEqualsString_false _ _ Hstatus).
  unfold _getErrorMessageFromConnectorResponse, readProp.
  rewrite (envelopeOf_not_nullish _ Hraw). simpl. rewrite Hbody.
  by eexists.
Qed.

(** X5: a response that holds its envelope under [response] is normalised
    as the envelope alone is, when the envelope has no [response] of its
    own. *)
Theorem getResponseFromDynamicApi_wrapped_once
    (responseJson envelope : JSONValue) (requestUrl : string) :
  nullish responseJson = false →
  getProp responseJson "response" = envelope →
  nullish envelope = false →
  nullish (getProp envelope "response") = true →
  _getResponseFromDynamicApi responseJson requestUrl
  = _getResponseFromDynamicApi envelope requestUrl.
Proof.
  intros Hraw Hresponse Henvelope Hinner.
  unfold _getResponseFromDynamicApi, readProp.
  rewrite Hraw, Henvelope. simpl.
  unfold coalesce. by rewrite Hresponse, Henvelope, Hinner.
Qed.

End Envelope.

(** X6: the allow-list test on the concatenation of two lists is the
    disjunction of the tests on each: adding entries never withdraws an
    operation, and the empty list supports none. *)
Theorem isClientSupportedOperation_app
    (options : BaseConnectorServiceOptions) (connectorId operationId : string)
    (first second : list OperationInfo.t) :
  _isClientSupportedOperation
    (withSupportedOperations options (first ++ second)%list) connectorId operationId
  = _isClientSupportedOperation
      (withSupportedOperations options first) connectorId operationId
    || _isClientSupportedOperation
         (withSupportedOperations options second) connectorId operationId
  ∧ _isClientSupportedOperation
      (withSupportedOperations options []) connectorId operationId
    = false.
Proof.
  unfold _isClientSupportedOperation. simpl. split; [|reflexivity].
  apply existsb_app.
Qed.

(** * The request router *)

Section Router.
Context `{!Collaborators}.

(** X7: outside the managed-identity route a GET never carries a content,
    and a POST or a PUT carries [parameters.body] as its content exactly
    when that body is truthy. *)
Theorem proxy_request_content
    (options : BaseConnectorServiceOptions) (connectionId connectorId : string)
    (parameters : gmap string JSONValue) (managedIdentityProperties : JSONValue) :
  Forall
    (λ call,
       match call with
       | GET request => content request = None
       | POST request | PUT request =>
           content request
           = if truthy (param parameters "body")
             then Some (param parameters "body") else None
       end)
    (_executeAzureDynamicApi options connectionId connectorId parameters
       false managedIdentityProperties).1.
Proof.
  unfold _executeAzureDynamicApi. simpl.
  destruct (toLowerCaseOf (param parameters "method")) as [lowered|ex]; simpl;
    [|constructor].
  destruct (String.eqb lowered "get"); [by repeat constructor|].
  destruct (String.eqb lowered "post"), (String.eqb lowered "put"); simpl;
    repeat constructor; by destruct (truthy (param parameters "body")).
Qed.

(** X8: outside the managed-identity route every request goes to the
    proxy URI of the connection, carries [parameters.headers], and its
    query parameters are the caller's queries together with [api-version];
    a query of the caller named [api-version] takes the place of the
    service's. *)
Theorem proxy_request_queries
    (options : BaseConnectorServiceOptions) (connectionId connectorId : string)
    (parameters : gmap string JSONValue) (managedIdentityProperties : JSONValue) :
  Forall
    (λ call,
       uri (optionsOf call)
       = requestUri options connectionId connectorId parameters false
       ∧ headers (optionsOf call) = Some (param parameters "headers")
       ∧ ∀ k,
           queryParameters (optionsOf call) !! k
           = match ownEntries (param parameters "queries") !! k with
             | Some query => Some query
             | None =>
                 if decide (k = "api-version")
                 then Some (JStr (ApiHubServiceDetails.apiVersion
                                    (apiHubServiceDetails options)))
                 else None
             end)
    (_executeAzureDynamicApi options connectionId connectorId parameters
       false managedIdentityProperties).1.
Proof.
  assert (Hquery : ∀ (queries : gmap string JSONValue) (version : JSONValue) k,
    (queries ∪ {[ "api-version" := version ]}) !! k
    = match queries !! k with
      | Some query => Some query
      | None => if decide (k = "api-version") then Some version else None
      end).
  { intros queries version k. rewrite lookup_union.
    destruct (queries !! k) as [query|]; simpl.
    - by destruct ({[ "api-version" := version ]} !! k).
    - rewrite lookup_singleton. case_decide; case_decide; simplify_eq; done. }
  unfold _executeAzureDynamicApi. simpl.
  destruct (toLowerCaseOf (param parameters "method")) as [lowered|ex]; simpl;
    [|constructor].
  destruct (String.eqb lowered "get"), (String.eqb lowered "post"),
    (String.eqb lowered "put"); simpl;
    try (by constructor);
    (constructor; [|by constructor]);
    destruct (truthy (param parameters "body")); simpl;
    (split; [reflexivity|split; [reflexivity|intros k; apply Hquery]]).
Qed.

(** X9: outside the managed-identity route the requests handed to the
    HTTP client do not depend on the casing of the method. *)
Theorem proxy_method_case_insensitive
    (options : BaseConnectorServiceOptions) (connectionId connectorId : string)
    (parameters : gmap string JSONValue) (managedIdentityProperties : JSONValue)
    (method method' : string) :
  parameters !! "method" = Some (JStr method) →
  caseVariant method method' →
  (_executeAzureDynamicApi options connectionId connectorId
     (<["method" := JStr method']> parameters) false managedIdentityProperties).1
  = (_executeAzureDynamicApi options connectionId connectorId parameters
       false managedIdentityProperties).1.
Proof.
  intros Hmethod Hvariant%caseVariant_toLowerCase.
  unfold _executeAzureDynamicApi, requestUri, param.
  rewrite Hmethod, lookup_insert_eq.
  rewrite !lookup_insert_ne by done. simpl. rewrite Hvariant.
  destruct (String.eqb (toLowerCase method) "get"); [done|].
  destruct (String.eqb (toLowerCase method) "post"); [done|].
  by destruct (String.eqb (toLowerCase method) "put").
Qed.

(** X10: outside the managed-identity route a method other than get, post
    and put is refused before any request is made: the call rejects with
    code [API_EXECUTION_FAILED], the message and the cause naming the
    method as given, and the data holding the method, the URI and the
    input path. *)
Theorem proxy_unsupported_method
    (options : BaseConnectorServiceOptions) (connectionId connectorId : string)
    (parameters : gmap string JSONValue) (managedIdentityProperties : JSONValue)
    (method : string) :
  parameters !! "method" = Some (JStr method) →
  toLowerCase method ≠ "get" →
  toLowerCase method ≠ "post" →
  toLowerCase method ≠ "put" →
  _executeAzureDynamicApi options connectionId connectorId parameters
    false managedIdentityProperties
  = ([],
     Rejected
       (ConnectorServiceException
          API_EXECUTION_FAILED
          (JStr ("Unsupported dynamic call connector method - '" +:+ method +:+ "'"))
          (JObj {[ "requestMethod" := JStr method;
                   "uri" := JStr (requestUri options connectionId connectorId
                                    parameters false);
                   "inputPath" := param parameters "path" ]})
          (Some (UnsupportedException
                   ("Unsupported dynamic call connector method - '" +:+
                    method +:+ "'"))))).
Proof.
  intros Hmethod Hget%String.eqb_neq Hpost%String.eqb_neq Hput%String.eqb_neq.
  unfold _executeAzureDynamicApi, param. rewrite Hmethod. simpl.
  by rewrite Hget, Hpost, Hput.
Qed.

(** X11: outside the managed-identity route a method that is not a string
    makes the call reject before any request is made, with code
    [API_EXECUTION_FAILED] and the [TypeError] as the cause. *)
Theorem proxy_method_not_a_string
    (options : BaseConnectorServiceOptions) (connectionId connectorId : string)
    (parameters : gmap string JSONValue) (managedIdentityProperties : JSONValue) :
  (∀ method, param parameters "method" ≠ JStr method) →
  ∃ message data,
    _executeAzureDynamicApi options connectionId connectorId parameters
      false managedIdentityProperties
    = ([],
       Rejected
         (ConnectorServiceException
            API_EXECUTION_FAILED (JStr message) data (Some (TypeError message)))).
Proof.
  intros Hmethod.
  unfold _executeAzureDynamicApi. simpl.
  destruct (param parameters "method") as [| | | |method| |] eqn:Hparam;
    try (by destruct (Hmethod method)); simpl;
    unfold executionFailed; simpl; by eexists _, _.
Qed.

(** X12: a call hands at most one request to the HTTP client. *)
Theorem at_most_one_request
    (options : BaseConnectorServiceOptions) (connectionId connectorId : string)
    (parameters : gmap string JSONValue) (isManagedIdentityTypeConnection : bool)
    (managedIdentityProperties : JSONValue) :
  (length (_executeAzureDynamicApi options connectionId connectorId parameters
             isManagedIdentityTypeConnection managedIdentityProperties).1 ≤ 1)%nat.
Proof.
  unfold _executeAzureDynamicApi.
  destruct isManagedIdentityTypeConnection; simpl; [done|].
  destruct (toLowerCaseOf (param parameters "method")) as [lowered|ex]; simpl;
    [|lia].
  destruct (String.eqb lowered "get"); [done|].
  destruct (String.eqb lowered "post"); [done|].
  destruct (String.eqb lowered "put"); simpl; lia.
Qed.

(** X13: on every route, what the HTTP client throws before it returns a
    promise is caught: the call rejects with code [API_EXECUTION_FAILED],
    the thrown error as the cause, its message when it has a truthy one,
    and the method, the URI and the input path as the data.  When the
    thrown error has no truthy message, the message is the fixed text that
    the formatter makes of the fallback template, whose placeholder is
    between apostrophes: it does not name the input path. *)
Theorem thrown_by_client_is_wrapped
    (options : BaseConnectorServiceOptions) (connectionId connectorId : string)
    (parameters : gmap string JSONValue) (isManagedIdentityTypeConnection : bool)
    (managedIdentityProperties : JSONValue) (call : HttpCall) (ex : Thrown) :
  (_executeAzureDynamicApi options connectionId connectorId parameters
     isManagedIdentityTypeConnection managedIdentityProperties).1 = [call] →
  perform (httpClient options) call = Threw ex →
  (_executeAzureDynamicApi options connectionId connectorId parameters
     isManagedIdentityTypeConnection managedIdentityProperties).2
  = Rejected
      (ConnectorServiceException
         API_EXECUTION_FAILED
         (if truthy (messageOf ex) then messageOf ex
          else JStr "Error executing the api {parameters}.")
         (JObj {[ "requestMethod" := param parameters "method";
                  "uri" := JStr (requestUri options connectionId connectorId parameters
                                   isManagedIdentityTypeConnection);
                  "inputPath" := param parameters "path" ]})
         (Some ex)).
Proof.
  unfold _executeAzureDynamicApi.
  destruct isManagedIdentityTypeConnection; simpl.
  - intros [= <-]. simpl. by intros ->.
  - destruct (toLowerCaseOf (param parameters "method")) as [lowered|ex']; simpl;
      [|discriminate].
    destruct (String.eqb lowered "get"); simpl; [intros [= <-]; simpl; by intros ->|].
    destruct (String.eqb lowered "post"); simpl; [intros [= <-]; simpl; by intros ->|].
    destruct (String.eqb lowered "put"); simpl; [intros [= <-]; simpl; by intros ->|].
    discriminate.
Qed.

(** X14: outside the managed-identity route the promise that the HTTP
    client returns is the promise of the call: its value is not
    normalised and its rejection is not wrapped. *)
Theorem proxy_returns_client_promise
    (options : BaseConnectorServiceOptions) (connectionId connectorId : string)
    (parameters : gmap string JSONValue) (managedIdentityProperties : JSONValue)
    (call : HttpCall) (promise : Promise) :
  (_executeAzureDynamicApi options connectionId connectorId parameters
     false managedIdentityProperties).1 = [call] →
  perform (httpClient options) call = Returned promise →
  (_executeAzureDynamicApi options connectionId connectorId parameters
     false managedIdentityProperties).2
  = promise.
Proof.
  unfold _executeAzureDynamicApi. simpl.
  destruct (toLowerCaseOf (param parameters "method")) as [lowered|ex']; simpl;
    [|discriminate].
  destruct (String.eqb lowered "get"); simpl; [intros [= <-]; simpl; by intros ->|].
  destruct (String.eqb lowered "post"); simpl; [intros [= <-]; simpl; by intros ->|].
  destruct (String.eqb lowered "put"); simpl; [intros [= <-]; simpl; by intros ->|].
  discriminate.
Qed.

(** X15: on the managed-identity route the call is pending only while the
    POST is, fulfils only with what the normaliser returns for the
    response of the POST, and rejects only with code
    [API_EXECUTION_FAILED], the method, the URI and the input path as the
    data and the error it caught as the cause; the message is that of the
    cause when it has a truthy one, else the fixed text that the formatter
    makes of the fallback template. *)
Theorem managed_identity_outcomes
    (options : BaseConnectorServiceOptions) (connectionId connectorId : string)
    (parameters : gmap string JSONValue) (managedIdentityProperties : JSONValue) :
  match (_executeAzureDynamicApi options connectionId connectorId parameters
           true managedIdentityProperties).2 with
  | Pending =>
      post (httpClient options)
           (dynamicInvokeRequest options parameters managedIdentityProperties)
      = Returned Pending
  | Fulfilled body =>
      ∃ raw,
        post (httpClient options)
             (dynamicInvokeRequest options parameters managedIdentityProperties)
        = Returned (Fulfilled raw)
        ∧ _getResponseFromDynamicApi raw (baseUrl options +:+ "/dynamicInvoke") = Ok body
  | Rejected ex =>
      ∃ cause,
        ex = ConnectorServiceException
               API_EXECUTION_FAILED
               (if truthy (messageOf cause) then messageOf cause
                else JStr "Error executing the api {parameters}.")
               (JObj {[ "requestMethod" := param parameters "method";
                        "uri" := JStr (baseUrl options +:+ "/dynamicInvoke");
                        "inputPath" := param parameters "path" ]})
               (Some cause)
  end.
Proof.
  unfold _executeAzureDynamicApi. simpl.
  destruct (post _ _) as [ex|[raw|ex|]]; simpl; try by eexists.
  fold (dynamicInvokeUri options).
  destruct (_getResponseFromDynamicApi raw _) eqn:Hunwrap; simpl; by eexists.
Qed.

End Router.

(** * The two resolvers *)

Section Resolvers.
Context `{!Collaborators}.

(** X16: both resolvers hand to the HTTP client the requests of the router
    and no other, and when the router rejects they reject with the same
    error: nothing is caught on the way. *)
Theorem resolvers_propagate_rejection
    (options : BaseConnectorServiceOptions) (connectionId connectorId : string)
    (parameters : gmap string JSONValue)
    (valuesExtension : LegacyDynamicValuesExtension) (parameterArrayType : option string)
    (schemaExtension : LegacyDynamicSchemaExtension)
    (isManagedIdentityTypeConnection : bool) (managedIdentityProperties : JSONValue)
    (calls : list HttpCall) (ex : Thrown) :
  _executeAzureDynamicApi options connectionId connectorId parameters
    isManagedIdentityTypeConnection managedIdentityProperties
  = (calls, Rejected ex) →
  getLegacyDynamicValues options connectionId connectorId parameters valuesExtension
    parameterArrayType isManagedIdentityTypeConnection managedIdentityProperties
  = (calls, Rejected ex)
  ∧ getLegacyDynamicSchema options connectionId connectorId parameters schemaExtension
      isManagedIdentityTypeConnection managedIdentityProperties
    = (calls, Rejected ex).
Proof.
  intros Hexec. unfold getLegacyDynamicValues, getLegacyDynamicSchema.
  by rewrite Hexec.
Qed.

(** X17: a collection that is not an array but has a truthy [length] (a
    non-empty string, an object with such a property) makes
    [getLegacyDynamicValues] reject with a [TypeError]. *)
Theorem getLegacyDynamicValues_not_an_array
    (options : BaseConnectorServiceOptions) (connectionId connectorId : string)
    (parameters : gmap string JSONValue) (extension : LegacyDynamicValuesExtension)
    (parameterArrayType : option string)
    (isManagedIdentityTypeConnection : bool) (managedIdentityProperties : JSONValue)
    (calls : list HttpCall) (response : JSONValue) :
  _executeAzureDynamicApi options connectionId connectorId parameters
    isManagedIdentityTypeConnection managedIdentityProperties
  = (calls, Fulfilled response) →
  (∀ items, candidateCollection extension response ≠ JArr items) →
  truthy (getProp (candidateCollection extension response) "length") = true →
  ∃ message,
    getLegacyDynamicValues options connectionId connectorId parameters extension
      parameterArrayType isManagedIdentityTypeConnection managedIdentityProperties
    = (calls, Rejected (TypeError message)).
Proof.
  intros Hexec Harray Hlength.
  unfold getLegacyDynamicValues. rewrite Hexec. simpl.
  unfold legacyValuesOf. rewrite collection_located, Hlength.
  destruct (candidateCollection extension response) as [| | | | |items|];
    try discriminate; simpl.
  - destruct s; [discriminate|]. by eexists.
  - by destruct (Harray items).
  - by eexists.
Qed.

(** X18: whenever the [length] of the collection is falsy (the collection
    is absent, a number, a boolean, the empty string, the empty array, or
    an object without a truthy [length]), [getLegacyDynamicValues] fulfils
    with the awaited response itself. *)
Theorem getLegacyDynamicValues_no_length
    (options : BaseConnectorServiceOptions) (connectionId connectorId : string)
    (parameters : gmap string JSONValue) (extension : LegacyDynamicValuesExtension)
    (parameterArrayType : option string)
    (isManagedIdentityTypeConnection : bool) (managedIdentityProperties : JSONValue)
    (calls : list HttpCall) (response : JSONValue) :
  _executeAzureDynamicApi options connectionId connectorId parameters
    isManagedIdentityTypeConnection managedIdentityProperties
  = (calls, Fulfilled response) →
  truthy (getProp (candidateCollection extension response) "length") = false →
  getLegacyDynamicValues options connectionId connectorId parameters extension
    parameterArrayType isManagedIdentityTypeConnection managedIdentityProperties
  = (calls, Fulfilled response).
Proof.
  intros Hexec Hlength.
  unfold getLegacyDynamicValues. rewrite Hexec. simpl.
  unfold legacyValuesOf. rewrite collection_located, Hlength.
  by rewrite andb_false_r.
Qed.

(** X19: every dynamic value made from a non-empty array is an object with
    the four properties [value], [displayName], [description] and
    [disabled] and no other, and its [disabled] is a boolean. *)
Theorem getLegacyDynamicValues_shape
    (options : BaseConnectorServiceOptions) (connectionId connectorId : string)
    (parameters : gmap string JSONValue) (extension : LegacyDynamicValuesExtension)
    (parameterArrayType : option string)
    (isManagedIdentityTypeConnection : bool) (managedIdentityProperties : JSONValue)
    (calls : list HttpCall) (response : JSONValue) (items : list JSONValue) :
  _executeAzureDynamicApi options connectionId connectorId parameters
    isManagedIdentityTypeConnection managedIdentityProperties
  = (calls, Fulfilled response) →
  candidateCollection extension response = JArr items →
  items ≠ [] →
  ∃ values : list JSONValue,
    getLegacyDynamicValues options connectionId connectorId parameters extension
      parameterArrayType isManagedIdentityTypeConnection managedIdentityProperties
    = (calls, Fulfilled (JArr values))
    ∧ Forall
        (λ dynamicValue,
           ∃ value displayName description (disabled : bool),
             dynamicValue
             = JObj {[ "value" := value;
                       "displayName" := displayName;
                       "description" := description;
                       "disabled" := JBool disabled ]})
        values.
Proof.
  intros Hexec Hcollection Hitems.
  exists (map (toDynamicValue extension parameterArrayType) items). split.
  - unfold getLegacyDynamicValues. rewrite Hexec. simpl.
    unfold legacyValuesOf. rewrite collection_located, Hcollection.
    by destruct items.
  - clear Hexec Hcollection Hitems.
    induction items as [|property items IH]; simpl; constructor; [|done].
    unfold toDynamicValue.
    destruct (whenSet parameterArrayType _ _); by eexists _, _, _, _.
Qed.

(** X20: [getLegacyDynamicSchema] never fulfils with [undefined]. *)
Theorem getLegacyDynamicSchema_never_undefined
    (options : BaseConnectorServiceOptions) (connectionId connectorId : string)
    (parameters : gmap string JSONValue) (extension : LegacyDynamicSchemaExtension)
    (isManagedIdentityTypeConnection : bool) (managedIdentityProperties : JSONValue)
    (schema : JSONValue) :
  (getLegacyDynamicSchema options connectionId connectorId parameters extension
     isManagedIdentityTypeConnection managedIdentityProperties).2
  = Fulfilled schema →
  schema ≠ JUndefined.
Proof.
  unfold getLegacyDynamicSchema.
  destruct (_executeAzureDynamicApi _ _ _ _ _ _) as [calls [response|ex|]]; simpl;
    try discriminate.
  unfold legacySchemaOf.
  destruct (truthy response); simpl; [|by intros [= <-]].
  destruct (whenSet (schema_value_path extension) _ _) as [schemaPath|]; simpl;
    [|by intros [= <-]].
  unfold coalesce.
  destruct (getObjectPropertyValue response _) eqn:Hvalue; simpl;
    by intros [= <-].
Qed.

(** X21: with no value path, or an empty one, a truthy response is wrapped
    whole as the properties of an object schema, whatever kind of value it
    is. *)
Theorem getLegacyDynamicSchema_without_path
    (options : BaseConnectorServiceOptions) (connectionId connectorId : string)
    (parameters : gmap string JSONValue) (extension : LegacyDynamicSchemaExtension)
    (isManagedIdentityTypeConnection : bool) (managedIdentityProperties : JSONValue)
    (calls : list HttpCall) (response : JSONValue) :
  _executeAzureDynamicApi options connectionId connectorId parameters
    isManagedIdentityTypeConnection managedIdentityProperties
  = (calls, Fulfilled response) →
  truthy response = true →
  schema_value_path extension = None ∨ schema_value_path extension = Some "" →
  getLegacyDynamicSchema options connectionId connectorId parameters extension
    isManagedIdentityTypeConnection managedIdentityProperties
  = (calls, Fulfilled (JObj {[ "properties" := response; "type" := JStr "object" ]})).
Proof.
  intros Hexec Hresponse Hpath.
  unfold getLegacyDynamicSchema. rewrite Hexec. simpl.
  unfold legacySchemaOf. rewrite Hresponse. simpl.
  by destruct Hpath as [-> | ->].
Qed.

(** X22: with a value path whose last segment is not "properties", a
    truthy response is searched along the whole path, and the call fulfils
    with what is found there, or with [null] when that is [undefined] or
    [null]. *)
Theorem getLegacyDynamicSchema_whole_path
    (options : BaseConnectorServiceOptions) (connectionId connectorId : string)
    (parameters : gmap string JSONValue) (path : string)
    (isManagedIdentityTypeConnection : bool) (managedIdentityProperties : JSONValue)
    (calls : list HttpCall) (response : JSONValue) :
  _executeAzureDynamicApi options connectionId connectorId parameters
    isManagedIdentityTypeConnection managedIdentityProperties
  = (calls, Fulfilled response) →
  truthy response = true →
  path ≠ "" →
  equals (List.last (split slash path) "") "properties" = false →
  getLegacyDynamicSchema options connectionId connectorId parameters
    {| schema_value_path := Some path |}
    isManagedIdentityTypeConnection managedIdentityProperties
  = (calls,
     Fulfilled (coalesce (getObjectPropertyValue response (split slash path)) JNull)).
Proof.
  intros Hexec Hresponse Hpath%String.eqb_neq Hlast.
  unfold getLegacyDynamicSchema. rewrite Hexec. simpl.
  unfold legacySchemaOf, whenSet. cbn [schema_value_path].
  rewrite Hresponse, Hpath. cbn [negb]. rewrite Hlast.
  by rewrite andb_false_r.
Qed.

(** X23: with a value path whose last segment is "properties" in any
    casing, a truthy response is searched under that last segment alone:
    the call fulfils with the property of the response of that name, or
    with [null], and the segments before the last are not consulted. *)
Theorem getLegacyDynamicSchema_last_segment_only
    (options : BaseConnectorServiceOptions) (connectionId connectorId : string)
    (parameters : gmap string JSONValue) (path : string)
    (init : list string) (segment : string)
    (isManagedIdentityTypeConnection : bool) (managedIdentityProperties : JSONValue)
    (calls : list HttpCall) (response : JSONValue) :
  _executeAzureDynamicApi options connectionId connectorId parameters
    isManagedIdentityTypeConnection managedIdentityProperties
  = (calls, Fulfilled response) →
  truthy response = true →
  path ≠ "" →
  split slash path = (init ++ [segment])%list →
  equals segment "properties" = true →
  getLegacyDynamicSchema options connectionId connectorId parameters
    {| schema_value_path := Some path |}
    isManagedIdentityTypeConnection managedIdentityProperties
  = (calls, Fulfilled (coalesce (getProp response segment) JNull)).
Proof.
  intros Hexec Hresponse Hpath Hsplit Hsegment.
  unfold getLegacyDynamicSchema. rewrite Hexec. simpl.
  rewrite (legacySchemaOf_trailing_properties path init segment response)
    by done.
  simpl. destruct (nullish response) eqn:Hnullish; [|done].
  by destruct response.
Qed.

End Resolvers.

(** * The invoke parameters, again *)

(** An entry that cannot be destructured ends the loop with a
    [TypeError]. *)
Lemma assignDefined_throws entries invokeParameters σ :
  (∃ parameterName entry,
     (parameterName, entry) ∈ entries ∧ nullish entry = true) →
  ∃ message, (assignDefined entries invokeParameters σ).2 = Throw (TypeError message).
Proof.
  revert σ.
  induction entries as [|[parameterName entry] rest IH]; intros σ (k & e & Hin & He).
  - by apply elem_of_nil in Hin.
  - simpl. unfold readProp.
    destruct (nullish entry) eqn:Hentry; [by eexists|].
    apply IH. exists k, e. split; [|done].
    apply elem_of_cons in Hin as [[= -> ->]|Hin]; [congruence|done].
Qed.

Lemma definedValues_lookup additionalParameters k :
  definedValues additionalParameters !! k
  = match ownEntries additionalParameters !! k with
    | Some entry =>
        match getProp entry "value" with
        | JUndefined => None
        | value => Some value
        end
    | None => None
    end.
Proof.
  unfold definedValues. rewrite lookup_omap.
  by destruct (ownEntries additionalParameters !! k).
Qed.

(** The whole effect of a call on a dynamic state that can be read. *)
Lemma getInvokeParameters_run
    (σ : gmap nat (gmap string JSONValue)) (parameters : nat)
    (dynamicState : JSONValue) (original : gmap string JSONValue) :
  σ !! parameters = Some original →
  nullish dynamicState = false →
  (∀ k entry,
     ownEntries (getProp dynamicState "parameters") !! k = Some entry →
     nullish entry = false) →
  _getInvokeParameters σ parameters dynamicState
  = (<[fresh (dom σ) :=
         definedValues (getProp dynamicState "parameters") ∪ original]> σ,
     Ok (fresh (dom σ))).
Proof.
  intros Hparameters Hstate Hentries.
  unfold _getInvokeParameters, readProp. rewrite Hstate, Hparameters. simpl.
  set (additional := getProp dynamicState "parameters") in *.
  set (invokeParameters := fresh (dom σ)).
  destruct (truthy additional) eqn:Htruthy.
  - destruct (assignDefined_merges
                (map_to_list (ownEntries additional)) invokeParameters
                (<[invokeParameters := original]> σ) original)
      as (merged & Hrun & Hmerged).
    { apply lookup_insert_eq. }
    { apply NoDup_fst_map_to_list. }
    { intros k entry Hin%elem_of_map_to_list. eauto. }
    rewrite Hrun, insert_insert_eq. rewrite list_to_map_to_list in Hmerged.
    do 2 f_equal. apply map_eq. intros k.
    rewrite Hmerged, lookup_union, definedValues_lookup.
    destruct (ownEntries additional !! k) as [entry|]; simpl.
    + destruct (getProp entry "value"); simpl;
        by destruct (original !! k).
    + by destruct (original !! k).
  - do 2 f_equal. apply map_eq. intros k.
    rewrite lookup_union, definedValues_lookup, (ownEntries_falsy _ Htruthy).
    rewrite lookup_empty. by destruct (original !! k).
Qed.

(** X24: a dynamic state that is [null] or [undefined], and a truthy set
    of additional parameters one of which is [null] or [undefined], make
    [_getInvokeParameters] throw a [TypeError]. *)
Theorem getInvokeParameters_type_error
    (σ : gmap nat (gmap string JSONValue)) (parameters : nat)
    (dynamicState : JSONValue) :
  nullish dynamicState = true
  ∨ (truthy (getProp dynamicState "parameters") = true
     ∧ ∃ k entry,
         ownEntries (getProp dynamicState "parameters") !! k = Some entry
         ∧ nullish entry = true) →
  ∃ message,
    (_getInvokeParameters σ parameters dynamicState).2 = Throw (TypeError message).
Proof.
  unfold _getInvokeParameters, readProp.
  destruct (nullish dynamicState) eqn:Hstate; [by eexists|].
  intros [|[Htruthy (k & entry & Hk & Hentry)]]; [done|].
  rewrite Htruthy.
  destruct (assignDefined_throws
              (map_to_list (ownEntries (getProp dynamicState "parameters")))
              (fresh (dom σ))
              (<[fresh (dom σ) := default ∅ (σ !! parameters)]> σ))
    as [message Hthrown].
  { exists k, entry. split; [|done]. by apply elem_of_map_to_list. }
  destruct (assignDefined _ _ _) as [σ2 done']. simpl in *.
  rewrite Hthrown. by eexists.
Qed.

(** X25: on a dynamic state that can be read, the call stores at a new
    reference the union of the defined values of the dynamic state and of
    the caller's parameters, the dynamic state first, and changes nothing
    else in the store. *)
Theorem getInvokeParameters_union
    (σ : gmap nat (gmap string JSONValue)) (parameters : nat)
    (dynamicState : JSONValue) (original : gmap string JSONValue) :
  σ !! parameters = Some original →
  nullish dynamicState = false →
  (∀ k entry,
     ownEntries (getProp dynamicState "parameters") !! k = Some entry →
     nullish entry = false) →
  ∃ invokeParameters,
    σ !! invokeParameters = None
    ∧ _getInvokeParameters σ parameters dynamicState
      = (<[invokeParameters :=
             definedValues (getProp dynamicState "parameters") ∪ original]> σ,
         Ok invokeParameters).
Proof.
  intros Hparameters Hstate Hentries.
  exists (fresh (dom σ)). split.
  - apply not_elem_of_dom, is_fresh.
  - by apply getInvokeParameters_run.
Qed.

(** X26: merging the same dynamic state into the returned parameters once
    more gives, at another new reference, an object equal to the one
    returned the first time. *)
Theorem getInvokeParameters_idempotent
    (σ : gmap nat (gmap string JSONValue)) (parameters : nat)
    (dynamicState : JSONValue) (original : gmap string JSONValue) :
  σ !! parameters = Some original →
  nullish dynamicState = false →
  (∀ k entry,
     ownEntries (getProp dynamicState "parameters") !! k = Some entry →
     nullish entry = false) →
  ∃ σ1 first σ2 second merged,
    _getInvokeParameters σ parameters dynamicState = (σ1, Ok first)
    ∧ _getInvokeParameters σ1 first dynamicState = (σ2, Ok second)
    ∧ first ≠ second
    ∧ σ2 !! first = Some merged
    ∧ σ2 !! second = Some merged.
Proof.
  intros Hparameters Hstate Hentries.
  set (defined := definedValues (getProp dynamicState "parameters")).
  set (σ1 := <[fresh (dom σ) := defined ∪ original]> σ).
  assert (Hfirst : σ1 !! fresh (dom σ) = Some (defined ∪ original))
    by apply lookup_insert_eq.
  assert (Hnew : σ1 !! fresh (dom σ1) = None)
    by apply not_elem_of_dom, is_fresh.
  assert (Hne : fresh (dom σ) ≠ fresh (dom σ1)) by congruence.
  exists σ1, (fresh (dom σ)),
    (<[fresh (dom σ1) := defined ∪ (defined ∪ original)]> σ1),
    (fresh (dom σ1)), (defined ∪ original).
  split; [by apply getInvokeParameters_run|].
  split; [by apply getInvokeParameters_run|].
  split; [done|]. split.
  - by rewrite lookup_insert_ne.
  - rewrite lookup_insert_eq. f_equal. apply map_eq. intros k.
    rewrite !lookup_union. by destruct (defined !! k), (original !! k).
Qed.

(** * The text of the formatted messages *)

Section Messages.
Context `{!Collaborators}.

(** X27: when the envelope does not say OK and has a [statusCode] and, in
    its body, a truthy [message], the message of the exception holds
    neither of them: the placeholders of the error-code template and of
    the diagnostic template are between apostrophes, so the formatter
    gives the fixed text of each template, the second one only when the
    headers carry a client request id. *)
Theorem getResponseFromDynamicApi_fixed_text
    (responseJson : JSONValue) (requestUrl : string) :
  nullish responseJson = false →
  getProp (envelopeOf responseJson) "statusCode" ≠ JStr "OK" →
  getProp (envelopeOf responseJson) "statusCode" ≠ JUndefined →
  nullish (getProp (envelopeOf responseJson) "body") = false →
  truthy (getProp (getProp (envelopeOf responseJson) "body") "message") = true →
  _getResponseFromDynamicApi responseJson requestUrl
  = Throw (ConnectorServiceException
             API_EXECUTION_FAILED_WITH_ERROR
             (if truthy (getClientRequestIdFromHeaders
                           (getProp (envelopeOf responseJson) "headers"))
              then JStr ("Error code: {errorCode}, Message: {message}. " +:+
                         "More diagnostic information: " +:+
                         "x-ms-client-request-id is {clientRequestId}.")
              else JStr "Error code: {errorCode}, Message: {message}.")
             (JObj {[ "connectorResponse" := envelopeOf responseJson ]}) None).
Proof.
  intros Hraw Hstatus Hdefined Hbody Hmessage.
  pose proof (envelopeOf_not_nullish _ Hraw) as Henvelope.
  unfold _getResponseFromDynamicApi, readProp. rewrite Hraw. simpl.
  fold (envelopeOf responseJson).
  rewrite (strictEqualsString_false _ _ Hstatus).
  unfold _getErrorMessageFromConnectorResponse, readProp.
  rewrite Henvelope. simpl. rewrite Hbody. simpl. rewrite Hmessage.
  destruct (getProp (envelopeOf responseJson) "statusCode"); try done;
    by destruct (truthy (getClientRequestIdFromHeaders _)).
Qed.

End Messages.

(** * The properties above, on the stand-ins *)

Lemma getResponseFromDynamicApi_fixed_text_witness :
  @_getResponseFromDynamicApi specCollaborators
    (JObj {[ "statusCode" := JNum 404;
             "body" := JObj {[ "message" := JStr "gone" ]} ]}) "https://x/y"
  = Throw (ConnectorServiceException
             API_EXECUTION_FAILED_WITH_ERROR
             (JStr "Error code: {errorCode}, Message: {message}.")
             (JObj {[ "connectorResponse" :=
                        JObj {[ "statusCode" := JNum 404;
                                "body" := JObj {[ "message" := JStr "gone" ]} ]} ]})
             None).
Proof.
  etransitivity.
  - apply (@getResponseFromDynamicApi_fixed_text specCollaborators
             (JObj {[ "statusCode" := JNum 404;
                      "body" := JObj {[ "message" := JStr "gone" ]} ]}) "https://x/y");
      [reflexivity|discriminate|discriminate|reflexivity|reflexivity].
  - reflexivity.
Defined.

Lemma getResponseFromDynamicApi_ok_only_witness :
  @_getResponseFromDynamicApi specCollaborators (okEnvelope schemaBody) "https://x/y"
  = Ok schemaBody
  ∧ getProp (envelopeOf (okEnvelope schemaBody)) "statusCode" = JStr "OK".
Proof.
  assert (Hok :
    @_getResponseFromDynamicApi specCollaborators (okEnvelope schemaBody) "https://x/y"
    = Ok schemaBody) by reflexivity.
  split; [exact Hok|].
  exact (proj1 (proj2 (@getResponseFromDynamicApi_ok_only specCollaborators
                         _ _ _ Hok))).
Defined.

Lemma getResponseFromDynamicApi_type_error_witness :
  nullish JNull = true
  ∧ ∃ message,
      @_getResponseFromDynamicApi specCollaborators JNull "https://x/y"
      = Throw (TypeError message).
Proof.
  split; [reflexivity|].
  apply (@getResponseFromDynamicApi_type_error specCollaborators).
  left. reflexivity.
Defined.

Lemma getResponseFromDynamicApi_wrapped_once_witness :
  @_getResponseFromDynamicApi specCollaborators
    (JObj {[ "response" := notFoundEnvelope ]}) "https://x/y"
  = @_getResponseFromDynamicApi specCollaborators notFoundEnvelope "https://x/y".
Proof.
  apply (@getResponseFromDynamicApi_wrapped_once specCollaborators); reflexivity.
Defined.

Lemma proxy_method_case_insensitive_witness :
  caseVariant "PUT" "put"
  ∧ (@_executeAzureDynamicApi specCollaborators (respondingWith JNull)
       "conn" armConnectorId (<["method" := JStr "put"]> putItem) false JUndefined).1
    = (@_executeAzureDynamicApi specCollaborators (respondingWith JNull)
         "conn" armConnectorId putItem false JUndefined).1.
Proof.
  pose proof (caseVariant_lowered "PUT") as Hvariant.
  split; [exact Hvariant|].
  apply (@proxy_method_case_insensitive specCollaborators _ _ _ _ _ "PUT" "put");
    [reflexivity|exact Hvariant].
Defined.

Lemma proxy_unsupported_method_witness :
  ∃ ex,
    @_executeAzureDynamicApi specCollaborators (respondingWith JNull)
      "conn" armConnectorId deleteItem false JUndefined
    = ([], Rejected ex)
    ∧ messageOf ex = JStr "Unsupported dynamic call connector method - 'delete'".
Proof.
  eexists. split.
  - apply (@proxy_unsupported_method specCollaborators _ _ _ deleteItem _ "delete");
      [reflexivity|discriminate|discriminate|discriminate].
  - reflexivity.
Defined.

Lemma proxy_method_not_a_string_witness :
  ∃ message data,
    @_executeAzureDynamicApi specCollaborators (respondingWith JNull)
      "conn" armConnectorId ∅ false JUndefined
    = ([],
       Rejected
         (ConnectorServiceException
            API_EXECUTION_FAILED (JStr message) data (Some (TypeError message)))).
Proof.
  apply (@proxy_method_not_a_string specCollaborators).
  intros method. discriminate.
Defined.

Lemma thrown_by_client_is_wrapped_witness :
  ∃ data,
    (@_executeAzureDynamicApi specCollaborators throwingOptions
       "conn" armConnectorId getItems false JUndefined).2
    = Rejected
        (ConnectorServiceException
           API_EXECUTION_FAILED (JStr "socket hang up") data (Some socketHangUp)).
Proof.
  eexists.
  etransitivity.
  - eapply (@thrown_by_client_is_wrapped specCollaborators throwingOptions
              "conn" armConnectorId getItems false JUndefined); reflexivity.
  - reflexivity.
Defined.

Lemma proxy_returns_client_promise_witness :
  (@_executeAzureDynamicApi specCollaborators
     (exampleOptions (Returned (Fulfilled notFoundEnvelope)))
     "conn" armConnectorId getItems false JUndefined).2
  = Fulfilled notFoundEnvelope.
Proof.
  eapply (@proxy_returns_client_promise specCollaborators
            (exampleOptions (Returned (Fulfilled notFoundEnvelope)))
            "conn" armConnectorId getItems JUndefined); reflexivity.
Defined.

Lemma resolvers_propagate_rejection_witness :
  (@getLegacyDynamicValues specCollaborators
     (exampleOptions (Returned (Rejected socketHangUp)))
     "conn" armConnectorId getItems itemsExtension None false JUndefined).2
  = Rejected socketHangUp
  ∧ (@getLegacyDynamicSchema specCollaborators
       (exampleOptions (Returned (Rejected socketHangUp)))
       "conn" armConnectorId getItems wholeBodySchema false JUndefined).2
    = Rejected socketHangUp.
Proof.
  destruct (@resolvers_propagate_rejection specCollaborators
              (exampleOptions (Returned (Rejected socketHangUp)))
              "conn" armConnectorId getItems itemsExtension None wholeBodySchema
              false JUndefined
              (@_executeAzureDynamicApi specCollaborators
                 (exampleOptions (Returned (Rejected socketHangUp)))
                 "conn" armConnectorId getItems false JUndefined).1
              socketHangUp eq_refl) as [Hvalues Hschema].
  split; [exact (f_equal snd Hvalues)|exact (f_equal snd Hschema)].
Defined.

Lemma getLegacyDynamicValues_not_an_array_witness :
  candidateCollection itemsExtension textItemsBody = JStr "abc"
  ∧ ∃ message,
      @getLegacyDynamicValues specCollaborators (respondingWith textItemsBody)
        "conn" "connectionProviders/sql" getItems itemsExtension None true JUndefined
      = (dynamicInvokeOf textItemsBody getItems, Rejected (TypeError message)).
Proof.
  split; [reflexivity|].
  apply (@getLegacyDynamicValues_not_an_array specCollaborators
           _ _ _ _ _ _ _ _ _ textItemsBody).
  - reflexivity.
  - intros items. discriminate.
  - reflexivity.
Defined.

Lemma getLegacyDynamicValues_no_length_witness :
  candidateCollection itemsExtension singleItemBody = JObj {[ "id" := JNum 1 ]}
  ∧ @getLegacyDynamicValues specCollaborators (respondingWith singleItemBody)
      "conn" "connectionProviders/sql" getItems itemsExtension None true JUndefined
    = (dynamicInvokeOf singleItemBody getItems, Fulfilled singleItemBody).
Proof.
  split; [reflexivity|].
  apply (@getLegacyDynamicValues_no_length specCollaborators); reflexivity.
Defined.

Lemma getLegacyDynamicValues_shape_witness :
  ∃ values,
    @getLegacyDynamicValues specCollaborators (respondingWith itemsBody)
      "conn" "connectionProviders/sql" getItems itemsExtension None true JUndefined
    = (dynamicInvokeOf itemsBody getItems, Fulfilled (JArr values))
    ∧ values ≠ [].
Proof.
  destruct (@getLegacyDynamicValues_shape specCollaborators
              (respondingWith itemsBody) "conn" "connectionProviders/sql"
              getItems itemsExtension None true JUndefined
              (dynamicInvokeOf itemsBody getItems) itemsBody
              [ JObj {[ "id" := JNum 1; "name" := JStr "one"; "enabled" := JBool false ]};
                JObj {[ "id" := JNum 2; "name" := JStr "two" ]} ])
    as (values & Hvalues & Hshape).
  - reflexivity.
  - reflexivity.
  - discriminate.
  - exists values. split; [exact Hvalues|].
    intros ->. discriminate Hvalues.
Defined.

Lemma getLegacyDynamicSchema_never_undefined_witness :
  (@getLegacyDynamicSchema specCollaborators (respondingWith schemaBody)
     "conn" "connectionProviders/sql" getItems schemaUnderSchema true JUndefined).2
  = Fulfilled tableSchema
  ∧ tableSchema ≠ JUndefined.
Proof.
  assert (Hschema :
    (@getLegacyDynamicSchema specCollaborators (respondingWith schemaBody)
       "conn" "connectionProviders/sql" getItems schemaUnderSchema true JUndefined).2
    = Fulfilled tableSchema) by reflexivity.
  split; [exact Hschema|].
  exact (@getLegacyDynamicSchema_never_undefined specCollaborators
           _ _ _ _ _ _ _ _ Hschema).
Defined.

Lemma getLegacyDynamicSchema_without_path_witness :
  @getLegacyDynamicSchema specCollaborators (respondingWith schemaBody)
    "conn" "connectionProviders/sql" getItems wholeBodySchema true JUndefined
  = (dynamicInvokeOf schemaBody getItems,
     Fulfilled (JObj {[ "properties" := schemaBody; "type" := JStr "object" ]})).
Proof.
  apply (@getLegacyDynamicSchema_without_path specCollaborators);
    [reflexivity|reflexivity|left; reflexivity].
Defined.

Lemma getLegacyDynamicSchema_whole_path_witness :
  @getLegacyDynamicSchema specCollaborators (respondingWith schemaBody)
    "conn" "connectionProviders/sql" getItems schemaUnderSchema true JUndefined
  = (dynamicInvokeOf schemaBody getItems,
     Fulfilled (coalesce (getObjectPropertyValue schemaBody (split slash "schema")) JNull)).
Proof.
  apply (@getLegacyDynamicSchema_whole_path specCollaborators
           _ _ _ _ "schema");
    [reflexivity|reflexivity|discriminate|reflexivity].
Defined.

Lemma getLegacyDynamicSchema_last_segment_only_witness :
  @getLegacyDynamicSchema specCollaborators (respondingWith schemaBody)
    "conn" "connectionProviders/sql" getItems schemaUnderProperties true JUndefined
  = (dynamicInvokeOf schemaBody getItems,
     Fulfilled (coalesce (getProp schemaBody "properties") JNull)).
Proof.
  apply (@getLegacyDynamicSchema_last_segment_only specCollaborators
           _ _ _ _ "schema/properties" ["schema"] "properties");
    [reflexivity|reflexivity|discriminate|reflexivity|reflexivity].
Defined.

Lemma getInvokeParameters_type_error_witness :
  nullish JUndefined = true
  ∧ ∃ message,
      (_getInvokeParameters callerStore 0%nat JUndefined).2
      = Throw (TypeError message).
Proof.
  split; [reflexivity|].
  apply getInvokeParameters_type_error. left. reflexivity.
Defined.

Lemma nullForA_entries k entry :
  ownEntries (getProp nullForA "parameters") !! k = Some entry →
  nullish entry = false.
Proof.
  change (ownEntries (getProp nullForA "parameters"))
    with ({[ "a" := JObj {[ "value" := JNull ]}; "b" := JObj ∅ ]}
          : gmap string JSONValue).
  rewrite lookup_insert_Some, lookup_singleton_Some.
  intros [[_ <-] | [_ [_ <-]]]; reflexivity.
Qed.

Lemma getInvokeParameters_union_witness :
  ∃ invokeParameters,
    callerStore !! invokeParameters = None
    ∧ _getInvokeParameters callerStore 0%nat nullForA
      = (<[invokeParameters :=
             definedValues (getProp nullForA "parameters")
             ∪ {[ "a" := JNum 1; "b" := JNum 2 ]}]> callerStore,
         Ok invokeParameters).
Proof.
  apply (getInvokeParameters_union callerStore 0%nat nullForA
           {[ "a" := JNum 1; "b" := JNum 2 ]});
    [reflexivity|reflexivity|exact nullForA_entries].
Defined.

Lemma getInvokeParameters_idempotent_witness :
  ∃ σ1 first σ2 second merged,
    _getInvokeParameters callerStore 0%nat nullForA = (σ1, Ok first)
    ∧ _getInvokeParameters σ1 first nullForA = (σ2, Ok second)
    ∧ first ≠ second
    ∧ σ2 !! first = Some merged
    ∧ σ2 !! second = Some merged.
Proof.
  apply (getInvokeParameters_idempotent callerStore 0%nat nullForA
           {[ "a" := JNum 1; "b" := JNum 2 ]});
    [reflexivity|reflexivity|exact nullForA_entries].
Defined.
